(** * pdftool: the PDF split / merge engine of [src/server.js]

    The [/api/split] and [/api/merge] handlers are embedded as functions
    over an explicit downloads store (the files written by [fs.writeFile]
    and by the archive writer), threaded through a small state and error
    monad; a thrown exception is an [Err] that the handler's [catch] turns
    into a 500 response.  Pages are an opaque type; a loaded PDF is its
    list of pages. *)

From Stdlib Require Import ZArith QArith List String Ascii Bool Lia.
Import ListNotations.
Local Open Scope Z_scope.

(** ** JavaScript string primitives used by the range parser *)
Module Js.

(** ASCII white space of [String.prototype.trim] and [parseInt]:
    TAB, LF, VT, FF, CR and SPACE. *)
Definition is_space (c : ascii) : bool :=
  let n := nat_of_ascii c in
  orb (Nat.eqb n 32) (andb (Nat.leb 9 n) (Nat.leb n 13)).

Fixpoint drop_spaces (l : list ascii) : list ascii :=
  match l with
  | [] => []
  | c :: r => if is_space c then drop_spaces r else l
  end.

(** [s.trimStart()] *)
Definition trimStart (s : string) : string :=
  string_of_list_ascii (drop_spaces (list_ascii_of_string s)).

(** [s.trim()] *)
Definition trim (s : string) : string :=
  string_of_list_ascii
    (rev (drop_spaces (rev (drop_spaces (list_ascii_of_string s))))).

(** [s.includes(c)] for a one-character needle *)
Fixpoint includes (c : ascii) (s : string) : bool :=
  match s with
  | EmptyString => false
  | String d r => if Ascii.eqb c d then true else includes c r
  end.

(** [s.split(sep)] for a one-character separator: always at least one
    piece, an empty piece between two adjacent separators. *)
Fixpoint split (sep : ascii) (s : string) : list string :=
  match s with
  | EmptyString => [EmptyString]
  | String c r =>
      if Ascii.eqb c sep then EmptyString :: split sep r
      else match split sep r with
           | x :: xs => String c x :: xs
           | [] => [String c EmptyString]
           end
  end.

(** value of a digit character in radix up to 36; 99 for a non-digit *)
Definition digit_value (c : ascii) : Z :=
  let n := Z.of_nat (nat_of_ascii c) in
  if (48 <=? n) && (n <=? 57) then n - 48
  else if (97 <=? n) && (n <=? 122) then n - 87
  else if (65 <=? n) && (n <=? 90) then n - 55
  else 99.

Fixpoint digits_from (radix acc : Z) (s : string) : Z :=
  match s with
  | EmptyString => acc
  | String c r =>
      let d := digit_value c in
      if d <? radix then digits_from radix (acc * radix + d) r else acc
  end.

(** the longest prefix of radix digits; [None] when it is empty *)
Definition parse_digits (radix : Z) (s : string) : option Z :=
  match s with
  | EmptyString => None
  | String c r =>
      let d := digit_value c in
      if d <? radix then Some (digits_from radix d r) else None
  end.

(** [parseInt(s)] with no radix (ECMAScript 19.2.5): leading white space
    skipped, an optional sign, a [0x]/[0X] prefix switching to radix 16,
    then the longest digit prefix.  [None] is [NaN]. *)
Definition parseInt (s : string) : option Z :=
  let s1 := trimStart s in
  let '(sign, s2) :=
    match s1 with
    | String c r =>
        if Ascii.eqb c "-"%char then (-1, r)
        else if Ascii.eqb c "+"%char then (1, r)
        else (1, s1)
    | EmptyString => (1, s1)
    end in
  let '(radix, s3) :=
    match s2 with
    | String c1 (String c2 r) =>
        if Ascii.eqb c1 "0"%char && (Ascii.eqb c2 "x"%char || Ascii.eqb c2 "X"%char)
        then (16, r) else (10, s2)
    | _ => (10, s2)
    end in
  option_map (Z.mul sign) (parse_digits radix s3).

(** a decimal digit character *)
Definition dec_digit (c : ascii) : Prop := (digit_value c <? 10) = true.

(** the decimal digits of [n >= 0] in front of [acc]; [fuel] bounds the
    number of digits *)
Fixpoint dec_digits (fuel : nat) (n : Z) (acc : string) : string :=
  match fuel with
  | O => acc
  | S f =>
      let acc' := String (ascii_of_nat (48 + Z.to_nat (n mod 10))%nat) acc in
      if n <? 10 then acc' else dec_digits f (n / 10) acc'
  end.

(** [`${n}`] for an integer *)
Definition num_to_string (n : Z) : string :=
  if n <? 0 then String "-" (dec_digits (S (Z.to_nat (Z.log2 (- n)))) (- n) "")
  else dec_digits (S (Z.to_nat (Z.log2 n))) n "".

End Js.

(** ** Range parser *)
Module Range.

(** A token of the range expression, with the numbers as [parseInt]
    returned them (1-based, [None] for [NaN]). *)
Inductive RangeSpec : Type :=
| Interval (start stop : option Z)
| Single (page : option Z).

(** [pageRanges.split(',').map(r => r.trim())] *)
Definition parse_ranges (pageRanges : string) : list string :=
  map Js.trim (Js.split ","%char pageRanges).

(** the two branches of the loop body: [range.includes('-')] selects
    [range.split('-').map(n => parseInt(n.trim()) - 1)], destructured
    into its first two values; otherwise [parseInt(range) - 1] *)
Definition parse_token (range : string) : RangeSpec :=
  if Js.includes "-"%char range then
    match map (fun n => Js.parseInt (Js.trim n)) (Js.split "-"%char range) with
    | a :: b :: _ => Interval a b
    | [a] => Interval a None
    | [] => Interval None None
    end
  else Single (Js.parseInt range).

(** [for (let p = p0; cond(p); p++)] collecting [p]; [fuel] bounds the
    number of iterations the condition allows *)
Fixpoint for_loop (fuel : nat) (p : Z) (cond : Z -> bool) : list Z :=
  match fuel with
  | O => []
  | S f => if cond p then p :: for_loop f (p + 1) cond else []
  end.

(** The page indices a token makes the split loop copy.  A [NaN] bound
    makes every comparison false, so the loop does not run. *)
Definition resolve (totalPages : Z) (spec : RangeSpec) : list Z :=
  match spec with
  | Interval (Some a) (Some b) =>
      let start := a - 1 in
      let end_ := b - 1 in
      for_loop (Z.to_nat (end_ - start + 1)) start
               (fun p => (p <=? end_) && (p <? totalPages))
  | Interval _ _ => []
  | Single (Some n) =>
      let pageNum := n - 1 in
      if pageNum <? totalPages then [pageNum] else []
  | Single None => []
  end.

(** [Math.ceil(totalPages / parts)] for [parts > 0] (page counts are far
    below 2^53, so the double division is exact enough) *)
Definition ceil_div (totalPages parts : Z) : Z :=
  (totalPages + parts - 1) / parts.

(** the indices of part [i] of split-by-size *)
Definition size_part (totalPages pagesPerPart i : Z) : list Z :=
  let startPage := i * pagesPerPart in
  let endPage := Z.min (startPage + pagesPerPart) totalPages in
  for_loop (Z.to_nat (endPage - startPage)) startPage (fun p => p <? endPage).

(** [lo, lo+1, ..., lo+n-1] *)
Fixpoint zs (lo : Z) (n : nat) : list Z :=
  match n with
  | O => []
  | S k => lo :: zs (lo + 1) k
  end.

(** The spec's resolution of an interval, in its own words:
    [[i-1 for i in a..b if i-1 < totalPages]]. *)
Definition interval_spec (totalPages a b : Z) : list Z :=
  filter (fun p => p <? totalPages)
         (map (fun i => i - 1) (zs a (Z.to_nat (b - a + 1)))).

End Range.

Import Range.

(** ** A state and error monad *)

Inductive res (A : Type) : Type :=
| Ok (a : A)
| Err (msg : string).
Arguments Ok {A} a.
Arguments Err {A} msg.

Definition M (S A : Type) : Type := S -> S * res A.

Definition ret {S A} (a : A) : M S A := fun s => (s, Ok a).

Definition bind {S A B} (m : M S A) (k : A -> M S B) : M S B :=
  fun s =>
    match m s with
    | (s', Ok a) => k a s'
    | (s', Err e) => (s', Err e)
    end.

Definition throw {S A} (e : string) : M S A := fun s => (s, Err e).

Notation "x <- m ;; k" := (bind m (fun x => k))
  (at level 61, m at next level, right associativity).

(** ** Server state and responses *)

(** generated artifact names: [split-part${i+1}-${now}.pdf],
    [split-files-${now}.zip], [merged-${now}.pdf] *)
Inductive fname : Type :=
| SplitPart (n now : Z)
| SplitZip (now : Z)
| MergedPdf (now : Z).

Definition fname_str (n : fname) : string :=
  match n with
  | SplitPart i now =>
      ("split-part" ++ Js.num_to_string i ++ "-" ++ Js.num_to_string now ++ ".pdf")%string
  | SplitZip now => ("split-files-" ++ Js.num_to_string now ++ ".zip")%string
  | MergedPdf now => ("merged-" ++ Js.num_to_string now ++ ".pdf")%string
  end.

(** the message of the error [fs.writeFile] throws when [downloads/]
    does not exist *)
Definition enoent_open (n : fname) : string :=
  ("ENOENT: no such file or directory, open 'downloads/" ++ fname_str n ++ "'")%string.

Inductive message : Type :=
| MergedN (n : nat)   (** [Merged ${files.length} PDFs successfully] *)
| SplitInto (n : nat). (** [Split into ${outputFiles.length} files] *)

Inductive response : Type :=
| Status400 (error : string)
| Status500 (error : string)
| Success (fileName : fname) (msg : message)
(** the archive's write stream could not open its file ([downloads/]
    missing): no archive exists, and the stream's asynchronous ENOENT
    error is raised outside the handler's [try], so what the client
    receives is decided by the archiver and the stream, not by this code *)
| ArchiveLost (fileName : fname).

(** the text fields of the split form *)
Record split_body : Type := {
  splitOption : option string;
  pageRanges : option string;
  numParts : option string
}.

(** JavaScript truthiness of an optional form field *)
Definition truthy (v : option string) : bool :=
  match v with
  | Some s => negb (String.eqb s "")
  | None => false
  end.

(** [v === s] *)
Definition is_value (v : option string) (s : string) : bool :=
  match v with
  | Some x => String.eqb x s
  | None => false
  end.

Definition field (v : option string) : string :=
  match v with
  | Some s => s
  | None => ""
  end.

Definition no_file_msg : string := "No file uploaded".
Definition merge_min_msg : string := "At least 2 files required for merging".
(** what [srcPages[i].node] throws inside [copyPages] for an index with
    no page *)
Definition copy_error_msg : string :=
  "Cannot read properties of undefined (reading 'node')".

(** a library call that returns or throws *)
Definition lift {S A : Type} (r : res A) : M S A :=
  match r with
  | Ok a => ret a
  | Err e => throw e
  end.

Section Server.
Context {Page : Type}.
(** the page pdf-lib's [save()] adds to a document that has none (its
    option [addDefaultPage] is [true] by default): a blank A4 page *)
Variable blank : Page.

Inductive content : Type :=
| Pdf (pages : list Page)
| Zip (entries : list fname).

(** the [downloads/] directory: whether it exists, and its files in
    write order *)
Record store : Type := mk_store {
  dl_exists : bool;
  dl_files : list (fname * content)
}.

(** [await fs.writeFile(path.join('downloads', name), ..)] *)
Definition write_file (name : fname) (c : content) : M store unit :=
  fun s =>
    if dl_exists s then (mk_store (dl_exists s) (dl_files s ++ [(name, c)]), Ok tt)
    else (s, Err (enoent_open name)).

(** [await fs.mkdir('downloads', { recursive: true })] *)
Definition mkdir_downloads : M store unit :=
  fun s => (mk_store true (dl_files s), Ok tt).

(** [createWriteStream(zipPath)], [archive.pipe(output)], one
    [archive.file] per part and [await archive.finalize()]: [true] when
    the archive is written, [false] when its stream cannot open the file
    because [downloads/] does not exist *)
Definition create_zip (name : fname) (entries : list fname) : M store bool :=
  fun s =>
    if dl_exists s then (mk_store (dl_exists s) (dl_files s ++ [(name, Zip entries)]), Ok true)
    else (s, Ok false).

(** the pages of the file [doc.save()] writes *)
Definition save (pdf : list Page) : list Page :=
  match pdf with
  | [] => [blank]
  | _ => pdf
  end.

(** pdf-lib's [copyPages(src, [p])]: [src.getPages()[p]], whose [.node]
    throws when there is no page at [p] *)
Definition copy_page (src : list Page) (p : Z) : M store Page :=
  if p <? 0 then throw copy_error_msg
  else match nth_error src (Z.to_nat p) with
       | Some pg => ret pg
       | None => throw copy_error_msg
       end.

(** [for p of indices: [copied] = copyPages(src, [p]); newPdf.addPage(copied)] *)
Fixpoint add_pages (src : list Page) (newPdf : list Page) (indices : list Z)
  : M store (list Page) :=
  match indices with
  | [] => ret newPdf
  | p :: ps => pg <- copy_page src p ;; add_pages src (newPdf ++ [pg]) ps
  end.

(** [pdf.getPageIndices()] *)
Definition getPageIndices (pdf : list Page) : list Z := zs 0 (List.length pdf).

(** the range branch: one part per token, saved as it is built *)
Fixpoint split_pages_loop (pdfDoc : list Page) (totalPages now i : Z)
         (ranges : list string) : M store (list fname) :=
  match ranges with
  | [] => ret []
  | range :: rest =>
      newPdf <- add_pages pdfDoc [] (resolve totalPages (parse_token range)) ;;
      let filename := SplitPart (i + 1) now in
      _ <- write_file filename (Pdf (save newPdf)) ;;
      others <- split_pages_loop pdfDoc totalPages now (i + 1) rest ;;
      ret (filename :: others)
  end.

(** the size branch: [for (let i = 0; i < parts; i++)], [fuel] counting
    the iterations [i < parts] allows *)
Fixpoint split_size_loop (pdfDoc : list Page) (totalPages now parts pagesPerPart : Z)
         (fuel : nat) (i : Z) : M store (list fname) :=
  match fuel with
  | O => ret []
  | S f =>
      if i <? parts then
        newPdf <- add_pages pdfDoc [] (size_part totalPages pagesPerPart i) ;;
        let filename := SplitPart (i + 1) now in
        _ <- write_file filename (Pdf (save newPdf)) ;;
        others <- split_size_loop pdfDoc totalPages now parts pagesPerPart f (i + 1) ;;
        ret (filename :: others)
      else ret []
  end.

(** the body of the [/api/split] handler, up to its [catch]; [file] is
    the upload, as [fs.readFile] and [PDFDocument.load] return it (its
    pages) or throw, and [now] the clock *)
Definition split_request (body : split_body) (file : option (res (list Page))) (now : Z)
  : M store response :=
  match file with
  | None => ret (Status400 no_file_msg)
  | Some loaded =>
      pdfDoc <- lift loaded ;;
      let totalPages := Z.of_nat (List.length pdfDoc) in
      outputFiles <-
        (if is_value (splitOption body) "pages" && truthy (pageRanges body) then
           split_pages_loop pdfDoc totalPages now 0
                            (parse_ranges (field (pageRanges body)))
         else if is_value (splitOption body) "size" && truthy (numParts body) then
           match Js.parseInt (field (numParts body)) with
           | Some parts =>
               split_size_loop pdfDoc totalPages now parts
                               (ceil_div totalPages parts) (Z.to_nat parts) 0
           | None => ret []
           end
         else ret []) ;;
      let zipFilename := SplitZip now in
      created <- create_zip zipFilename outputFiles ;;
      if created then ret (Success zipFilename (SplitInto (List.length outputFiles)))
      else ret (ArchiveLost zipFilename)
  end.

(** the copy loop of [/api/merge]: each upload is read and loaded, then
    all its pages are copied *)
Fixpoint merge_loop (mergedPdf : list Page) (files : list (res (list Page)))
  : M store (list Page) :=
  match files with
  | [] => ret mergedPdf
  | file :: rest =>
      pdf <- lift file ;;
      copiedPages <- add_pages pdf [] (getPageIndices pdf) ;;
      merge_loop (mergedPdf ++ copiedPages) rest
  end.

(** the body of the [/api/merge] handler, up to its [catch] *)
Definition merge_request (files : option (list (res (list Page)))) (now : Z)
  : M store response :=
  match files with
  | None => ret (Status400 merge_min_msg)
  | Some fs =>
      if Nat.ltb (List.length fs) 2 then ret (Status400 merge_min_msg)
      else
        mergedPdf <- merge_loop [] fs ;;
        let outputFilename := MergedPdf now in
        _ <- mkdir_downloads ;;
        _ <- write_file outputFilename (Pdf (save mergedPdf)) ;;
        ret (Success outputFilename (MergedN (List.length fs)))
  end.

(** [try { ... } catch (error) { res.status(500) ... }] *)
Definition handle (m : M store response) (s : store) : store * response :=
  match m s with
  | (s', Ok r) => (s', r)
  | (s', Err e) => (s', Status500 e)
  end.

Definition split_handler (body : split_body) (file : option (res (list Page))) (now : Z)
  : store -> store * response :=
  handle (split_request body file now).

Definition merge_handler (files : option (list (res (list Page)))) (now : Z)
  : store -> store * response :=
  handle (merge_request files now).

(** the page lists of the PDFs among some files, in write order *)
Fixpoint pdfs_of (s : list (fname * content)) : list (list Page) :=
  match s with
  | [] => []
  | (_, Pdf ps) :: r => ps :: pdfs_of r
  | (_, Zip _) :: r => pdfs_of r
  end.

(** the files the split loops write for saved [parts], numbered from [i+1] *)
Fixpoint written (now i : Z) (parts : list (list Page)) : list (fname * content) :=
  match parts with
  | [] => []
  | part :: rest => (SplitPart (i + 1) now, Pdf part) :: written now (i + 1) rest
  end.

(** the pages [add_pages] collects for a list of indices, or [None] when
    one of the copies throws *)
Fixpoint copy_group (src : list Page) (indices : list Z) : option (list Page) :=
  match indices with
  | [] => Some []
  | p :: ps =>
      if p <? 0 then None
      else match nth_error src (Z.to_nat p), copy_group src ps with
           | Some pg, Some rest => Some (pg :: rest)
           | _, _ => None
           end
  end.


(** the pages of part [k] of split-by-size, [pagesPerPart] pages from
    [k * pagesPerPart] on, cut at the end of the document *)
Definition size_pages (pdfDoc : list Page) (totalPages pagesPerPart k : Z) : list Page :=
  firstn (Z.to_nat (Z.min (k * pagesPerPart + pagesPerPart) totalPages - k * pagesPerPart))
         (skipn (Z.to_nat (k * pagesPerPart)) pdfDoc).

(** the number of parts with no page of the document *)
Definition empty_parts (parts : list (list Page)) : nat :=
  List.length (filter (fun part => Nat.eqb (List.length part) 0) parts).

End Server.

(** an existing, empty [downloads/], and a server with none yet *)
Definition fresh_downloads {Page : Type} : @store Page := mk_store true [].
Definition no_downloads {Page : Type} : @store Page := mk_store false [].

Definition pages_body (r : string) : split_body :=
  {| splitOption := Some "pages"%string; pageRanges := Some r; numParts := None |}.

Definition size_body (n : string) : split_body :=
  {| splitOption := Some "size"%string; pageRanges := None; numParts := Some n |}.

(** a document of [n] pages, page [k] being [k] *)
Definition sample (n : nat) : list nat := seq 0 n.

(** the blank page of the concrete runs: a page no sample holds *)
Definition blank_n : nat := 99%nat.

Example ex_tokens :
  map (fun r => resolve 10 (parse_token r)) (parse_ranges "1-3, 5, 7-10") =
  [[0; 1; 2]; [4]; [6; 7; 8; 9]].
Proof. reflexivity. Qed.

Example ex_9_12 : resolve 10 (parse_token "9-12") = [8; 9].
Proof. reflexivity. Qed.

Example ex_size :
  map (@List.length nat)
      (pdfs_of (dl_files (fst (split_handler blank_n (size_body "4") (Some (Ok (sample 10))) 7
                                             fresh_downloads)))) =
  [3; 3; 3; 1]%nat.
Proof. reflexivity. Qed.

Example ex_names : fname_str (SplitPart 12 1700000000123) = "split-part12-1700000000123.pdf"%string.
Proof. reflexivity. Qed.

Example ex_parseInt :
  map Js.parseInt [" 12"; "+3"; "-0"; "0x1f"; "0x"; "abc"; "7e2"; ""]%string =
  [Some 12; Some 3; Some 0; Some 31; None; None; Some 7; None].
Proof. reflexivity. Qed.

(** ** The other parts of [src/server.js] *)

(** *** [path.extname] and the extension the handlers dispatch on *)
Module Path.

(** the loop variables of Node's posix [path.extname] *)
Record ext_scan : Type := mk_scan {
  startDot : Z;
  startPart : Z;
  end_ : Z;
  matchedSlash : bool;
  preDotState : Z
}.

Definition scan_init : ext_scan := mk_scan (-1) 0 (-1) true 0.

(** [for (let i = path.length - 1; i >= 0; --i)], fed the characters from
    the last one on; [i] is the index of the head of [rcs]; the [break]
    at a separator ends the scan *)
Fixpoint scan (rcs : list ascii) (i : Z) (st : ext_scan) : ext_scan :=
  match rcs with
  | [] => st
  | c :: rest =>
      if Ascii.eqb c "/"%char then
        if negb (matchedSlash st) then
          mk_scan (startDot st) (i + 1) (end_ st) (matchedSlash st) (preDotState st)
        else scan rest (i - 1) st
      else
        let st1 :=
          if end_ st =? -1
          then mk_scan (startDot st) (startPart st) (i + 1) false (preDotState st)
          else st in
        let st2 :=
          if Ascii.eqb c "."%char then
            if startDot st1 =? -1
            then mk_scan i (startPart st1) (end_ st1) (matchedSlash st1) (preDotState st1)
            else if negb (preDotState st1 =? 1)
            then mk_scan (startDot st1) (startPart st1) (end_ st1) (matchedSlash st1) 1
            else st1
          else if negb (startDot st1 =? -1)
          then mk_scan (startDot st1) (startPart st1) (end_ st1) (matchedSlash st1) (-1)
          else st1 in
        scan rest (i - 1) st2
  end.

(** [s.slice(b, e)] for [0 <= b <= e <= s.length] *)
Definition slice (s : string) (b e : Z) : string :=
  substring (Z.to_nat b) (Z.to_nat (e - b)) s.

(** [path.extname(path)] *)
Definition extname (path : string) : string :=
  let st := scan (rev (list_ascii_of_string path))
                 (Z.of_nat (String.length path) - 1) scan_init in
  if (startDot st =? -1) || (end_ st =? -1) || (preDotState st =? 0) ||
     ((preDotState st =? 1) && (startDot st =? end_ st - 1) &&
      (startDot st =? startPart st + 1))
  then EmptyString
  else slice path (startDot st) (end_ st).

(** [s.slice(1)] *)
Definition slice1 (s : string) : string :=
  match s with
  | String _ r => r
  | EmptyString => EmptyString
  end.

Definition lower_char (c : ascii) : ascii :=
  let n := nat_of_ascii c in
  if Nat.leb 65 n && Nat.leb n 90 then ascii_of_nat (n + 32) else c.

Definition upper_char (c : ascii) : ascii :=
  let n := nat_of_ascii c in
  if Nat.leb 97 n && Nat.leb n 122 then ascii_of_nat (n - 32) else c.

Fixpoint map_chars (f : ascii -> ascii) (s : string) : string :=
  match s with
  | EmptyString => EmptyString
  | String c r => String (f c) (map_chars f r)
  end.

(** [s.toLowerCase()] and [s.toUpperCase()] on ASCII text *)
Definition toLowerCase (s : string) : string := map_chars lower_char s.
Definition toUpperCase (s : string) : string := map_chars upper_char s.

(** [path.extname(file.originalname).slice(1).toLowerCase()] *)
Definition fromExt (originalname : string) : string :=
  toLowerCase (slice1 (extname originalname)).

(** characters that are neither a dot nor a separator *)
Definition plain (l : list ascii) : Prop :=
  Forall (fun c => Ascii.eqb c "."%char = false /\ Ascii.eqb c "/"%char = false) l.

End Path.

(** *** [cleanupOldFiles] *)
Module Cleanup.

Definition maxAge : Z := 3600000.

(** a directory entry: its name, its [mtimeMs] in whole milliseconds
    ([None] when [fs.stat] throws, e.g. the file is gone), and whether
    [fs.unlink] succeeds on it *)
Record entry : Type := mk_entry {
  ename : string;
  mtimeMs : option Z;
  unlinkable : bool
}.

(** how many times [Date.now()] has been read, and the files unlinked so
    far as [(dir, file)] *)
Record sweep_state : Type := mk_sweep {
  calls : nat;
  unlinked : list (string * string)
}.

Definition enoent : string := "ENOENT: no such file or directory".
Definition eperm : string := "EPERM: operation not permitted".

Section Sweep.
(** [clock k]: the value of the [k]-th reading of [Date.now()] *)
Variable clock : nat -> Z.

Definition date_now : M sweep_state Z :=
  fun s => (mk_sweep (S (calls s)) (unlinked s), Ok (clock (calls s))).

Definition stat (e : entry) : M sweep_state Z :=
  match mtimeMs e with
  | Some t => ret t
  | None => throw enoent
  end.

Definition unlink (dir : string) (e : entry) : M sweep_state unit :=
  if unlinkable e
  then fun s => (mk_sweep (calls s) (unlinked s ++ [(dir, ename e)]), Ok tt)
  else throw eperm.

(** [for (const file of files) { stats = await fs.stat(..);
    if (Date.now() - stats.mtimeMs > maxAge) await fs.unlink(..) }] *)
Fixpoint sweep (dir : string) (files : list entry) : M sweep_state unit :=
  match files with
  | [] => ret tt
  | file :: rest =>
      mt <- stat file ;;
      t <- date_now ;;
      _ <- (if maxAge <? t - mt then unlink dir file else ret tt) ;;
      sweep dir rest
  end.

(** [fs.readdir(dir)]; [None] when it throws *)
Definition readdir (listing : option (list entry)) : M sweep_state (list entry) :=
  match listing with
  | Some l => ret l
  | None => throw enoent
  end.

(** [try { ... } catch (err) {}] *)
Definition swallow (m : M sweep_state unit) : M sweep_state unit :=
  fun s => (fst (m s), Ok tt).

Fixpoint sweep_dirs (dirs : list (string * option (list entry))) : M sweep_state unit :=
  match dirs with
  | [] => ret tt
  | (dir, listing) :: rest =>
      _ <- swallow (files <- readdir listing ;; sweep dir files) ;;
      sweep_dirs rest
  end.

(** [cleanupOldFiles()], given what [readdir] finds in the two folders *)
Definition cleanupOldFiles (uploads downloads : option (list entry)) : M sweep_state unit :=
  sweep_dirs [("uploads"%string, uploads); ("downloads"%string, downloads)].

End Sweep.

(** the entries a sweep at time [now] removes *)
Definition expired (now : Z) (files : list entry) : list entry :=
  filter (fun e => match mtimeMs e with
                   | Some t => maxAge <? now - t
                   | None => false
                   end) files.

(** an entry whose [fs.stat] and [fs.unlink] both succeed *)
Definition sound (e : entry) : Prop := mtimeMs e <> None /\ unlinkable e = true.


End Cleanup.

(** *** The convert, compress, security and image endpoints *)
Module Web.

(** an uploaded file as multer stores it: its path in [uploads/], the
    client's file name and its bytes *)
Record upload : Type := mk_upload {
  upath : string;
  originalname : string;
  udata : string
}.

(** [`${prefix}-${Date.now()}.${ext}`] *)
Inductive out_name : Type :=
| OutName (prefix : string) (now : Z) (ext : string).

(** one [drawText] call: text, x, y, size and opacity ([None]: not given) *)
Record drawing : Type := mk_drawing {
  dtext : string;
  dx : Q;
  dy : Q;
  dsize : Z;
  dopacity : option Q
}.

(** a pdf-lib page: its size and the texts drawn on it, in order *)
Record pdf_page : Type := mk_page {
  pwidth : Q;
  pheight : Q;
  drawn : list drawing
}.

(** the calls made on a sharp instance before [toFile] *)
Inductive sharp_op : Type :=
| ToFormat (fmt : string)
| JpegOpt (quality : option Z)
| PngOpt (quality : option Z)
| WebpOpt (quality : option Z)
| Rotate (angle : option Z)
| Resize (width height : option Z)
| Extract (left top width height : Z)
| Grayscale.

(** what a handler writes to [downloads/] *)
Inductive artifact : Type :=
| SharpOut (input : string) (ops : list sharp_op) (bytes : string)
| PdfFile (pages : list pdf_page)
| TextFile (text : string)
| DocxFile (paragraph : string).

(** [uploads/], the files of [downloads/] and whether [downloads/]
    exists *)
Record fsys : Type := mk_fs {
  uploads : list string;
  downloads : list (out_name * artifact);
  has_downloads : bool
}.

(** [`${prefix}-${Date.now()}.${ext}`] as a string *)
Definition out_str (n : out_name) : string :=
  match n with
  | OutName prefix now ext => (prefix ++ "-" ++ Js.num_to_string now ++ "." ++ ext)%string
  end.

(** the message of the error [fs.writeFile] and sharp's [toFile] throw
    when [downloads/] does not exist *)
Definition open_enoent (n : out_name) : string :=
  ("ENOENT: no such file or directory, open 'downloads/" ++ out_str n ++ "'")%string.

(** the page pdf-lib's [save()] adds to a document with no page: a blank
    A4 page, 595.28 x 841.89 *)
Definition a4_blank : pdf_page := mk_page (59528 # 100) (84189 # 100) [].

Definition save_pdf (pages : list pdf_page) : list pdf_page :=
  match pages with
  | [] => [a4_blank]
  | _ => pages
  end.

(** [res.status(400).json(..)], [res.status(500).json(..)] and the
    success object's [fileName] and [message] *)
Inductive eresponse : Type :=
| Err400 (error : string)
| Err500 (error : string)
| Done (fileName : out_name) (message : string).

(** [`${v}`] for a form field *)
Definition js_str (v : option string) : string :=
  match v with
  | Some s => s
  | None => "undefined"%string
  end.

Definition mem (x : string) (l : list string) : bool := existsb (String.eqb x) l.

(** [[...].includes(v)] for a form field *)
Definition js_in (v : option string) (l : list string) : bool :=
  match v with
  | Some x => mem x l
  | None => false
  end.

(** writing the file [downloads/n] *)
Definition write_out (n : out_name) (a : artifact) : M fsys unit :=
  fun s =>
    if has_downloads s then (mk_fs (uploads s) (downloads s ++ [(n, a)]) true, Ok tt)
    else (s, Err (open_enoent n)).

(** the folders once [downloads/] exists *)
Definition with_downloads (s : fsys) : fsys := mk_fs (uploads s) (downloads s) true.

(** [await fs.mkdir('downloads', { recursive: true })] *)
Definition mkdir_downloads : M fsys unit := fun s => (with_downloads s, Ok tt).

(** the uploads left once [p] is deleted *)
Definition without (p : string) (l : list string) : list string :=
  filter (fun q => negb (String.eqb q p)) l.

(** [fs.unlink(file.path)] *)
Definition unlink_upload (p : string) : M fsys unit :=
  fun s =>
    if existsb (String.eqb p) (uploads s)
    then (mk_fs (without p (uploads s)) (downloads s) (has_downloads s), Ok tt)
    else (s, Err Cleanup.enoent).

(** how a request that had its upload at [p] and created [downloads/]
    leaves the folders: a success has deleted the upload and written
    exactly the file it names, an error response has changed nothing
    else *)
Definition settles (p : string) (s : fsys) (r : fsys * eresponse) : Prop :=
  match r with
  | (s', Done n _) => exists a, s' = mk_fs (without p (uploads s)) (downloads s ++ [(n, a)]) true
  | (s', _) => s' = with_downloads s
  end.

Definition handle_e (m : M fsys eresponse) (s : fsys) : fsys * eresponse :=
  match m s with
  | (s', Ok r) => (s', r)
  | (s', Err e) => (s', Err500 e)
  end.

Definition image_formats : list string :=
  ["jpg"; "jpeg"; "png"; "webp"; "gif"; "bmp"]%string.

Definition pdf_image_msg : string := "PDF to image conversion requires additional setup".
Definition compress_msg : string := "Unsupported file format for compression".
Definition encrypt_msg : string :=
  "PDF encryption requires additional setup with qpdf or similar tools".
(** what [pages[0].getSize()] throws for a document with no page *)
Definition getSize_msg : string :=
  "Cannot read properties of undefined (reading 'getSize')".

Definition add_drawing (d : drawing) (p : pdf_page) : pdf_page :=
  mk_page (pwidth p) (pheight p) (drawn p ++ [d]).

(** [switch (compressionLevel)] *)
Definition quality_of (level : option string) : Z :=
  if is_value level "low" then 90
  else if is_value level "medium" then 75
  else if is_value level "high" then 60
  else if is_value level "extreme" then 40
  else 75.

(** [parseInt(v) || 400] *)
Definition or400 (v : option Z) : Z :=
  match v with
  | Some z => if z =? 0 then 400 else z
  | None => 400
  end.

Section Endpoints.
(** the libraries: [PDFDocument.load], the check [drawText] makes that the
    standard font encodes the text, sharp's pipeline up to [toFile],
    mammoth's [extractRawText], and the UTF-8 decoding of
    [fs.readFile(.., 'utf-8')]; a [res] is what the call returns or throws *)
Variable pdf_load : string -> res (list pdf_page).
Variable draw_check : string -> res unit.
Variable sharp_toFile : string -> list sharp_op -> res string.
Variable extractRawText : string -> res string.
Variable utf8_decode : string -> string.

(** [pages.forEach(page => page.drawText(..))] *)
Fixpoint draw_all (d : drawing) (pages : list pdf_page) : M fsys (list pdf_page) :=
  match pages with
  | [] => ret []
  | p :: ps =>
      _ <- lift (draw_check (dtext d)) ;;
      rest <- draw_all d ps ;;
      ret (add_drawing d p :: rest)
  end.

(** the body of [/api/convert]; [Some r] is a [return res.status(400)..]
    out of the branches *)
Definition convert_request (toFormat : option string) (file : option upload) (now : Z)
  : M fsys eresponse :=
  match file with
  | None => ret (Err400 no_file_msg)
  | Some f =>
      let outputFilename := OutName "converted" now (js_str toFormat) in
      _ <- mkdir_downloads ;;
      let fromExt := Path.fromExt (originalname f) in
      early <-
        (if mem fromExt image_formats && js_in toFormat image_formats then
           let ops := [ToFormat (if is_value toFormat "jpg" then "jpeg"%string
                                 else js_str toFormat)] in
           bytes <- lift (sharp_toFile (udata f) ops) ;;
           _ <- write_out outputFilename (SharpOut (udata f) ops bytes) ;;
           ret None
         else if String.eqb fromExt "pdf" && js_in toFormat ["jpg"; "png"]%string then
           ret (Some (Err400 pdf_image_msg))
         else if String.eqb fromExt "txt" && is_value toFormat "pdf" then
           let content := utf8_decode (udata f) in
           let text := substring 0 500 content in
           _ <- lift (draw_check text) ;;
           _ <- write_out outputFilename
                  (PdfFile (save_pdf [mk_page 600 800 [mk_drawing text 50 750 12 None]])) ;;
           ret None
         else if String.eqb fromExt "docx" && is_value toFormat "txt" then
           value <- lift (extractRawText (udata f)) ;;
           _ <- write_out outputFilename (TextFile value) ;;
           ret None
         else if String.eqb fromExt "txt" && is_value toFormat "docx" then
           _ <- write_out outputFilename (DocxFile (utf8_decode (udata f))) ;;
           ret None
         else
           ret (Some (Err400 ("Conversion from " ++ fromExt ++ " to " ++
                              js_str toFormat ++ " not supported")%string))) ;;
      match early with
      | Some r => ret r
      | None =>
          _ <- unlink_upload (upath f) ;;
          ret (Done outputFilename ("Converted to " ++ Path.toUpperCase (js_str toFormat))%string)
      end
  end.

(** the body of [/api/compress]; the size report (two [fs.stat] calls and
    the [size] text) is left out *)
Definition compress_request (compressionLevel : option string) (file : option upload) (now : Z)
  : M fsys eresponse :=
  match file with
  | None => ret (Err400 no_file_msg)
  | Some f =>
      let ext := Path.fromExt (originalname f) in
      let outputFilename := OutName "compressed" now ext in
      _ <- mkdir_downloads ;;
      let quality := quality_of compressionLevel in
      if mem ext ["jpg"; "jpeg"; "png"; "webp"]%string then
        let ops := [JpegOpt (if String.eqb ext "jpeg" || String.eqb ext "jpg"
                             then Some quality else None);
                    PngOpt (if String.eqb ext "png" then Some quality else None);
                    WebpOpt (if String.eqb ext "webp" then Some quality else None)] in
        bytes <- lift (sharp_toFile (udata f) ops) ;;
        _ <- write_out outputFilename (SharpOut (udata f) ops bytes) ;;
        _ <- unlink_upload (upath f) ;;
        ret (Done outputFilename ("Compressed with " ++ js_str compressionLevel ++ " quality")%string)
      else if String.eqb ext "pdf" then
        pdfDoc <- lift (pdf_load (udata f)) ;;
        _ <- write_out outputFilename (PdfFile (save_pdf pdfDoc)) ;;
        _ <- unlink_upload (upath f) ;;
        ret (Done outputFilename "Compressed PDF")
      else ret (Err400 compress_msg)
  end.

(** the body of [/api/security] ([password] is read but never used) *)
Definition security_request (securityAction password watermarkText : option string)
           (file : option upload) (now : Z) : M fsys eresponse :=
  match file with
  | None => ret (Err400 no_file_msg)
  | Some f =>
      pdfDoc <- lift (pdf_load (udata f)) ;;
      let outputFilename := OutName (js_str securityAction) now "pdf" in
      if is_value securityAction "encrypt" then ret (Err400 encrypt_msg)
      else
        _ <- (if is_value securityAction "watermark" && truthy watermarkText then
                match pdfDoc with
                | [] => throw getSize_msg
                | p0 :: _ =>
                    let d := mk_drawing (field watermarkText)
                                        (pwidth p0 / 2 - 100)%Q (pheight p0 / 2)%Q
                                        48 (Some (1 # 5)%Q) in
                    pages <- draw_all d pdfDoc ;;
                    write_out outputFilename (PdfFile (save_pdf pages))
                end
              else ret tt) ;;
        _ <- unlink_upload (upath f) ;;
        ret (Done outputFilename (js_str securityAction ++ " applied successfully")%string)
  end.

(** the sharp calls [/api/image] chains for an operation *)
Definition image_ops (imageOperation rotationAngle resizeWidth resizeHeight : option string)
  : list sharp_op :=
  if is_value imageOperation "rotate" then
    [Rotate (Js.parseInt (js_str rotationAngle))]
  else if is_value imageOperation "resize" then
    [Resize (Js.parseInt (js_str resizeWidth)) (Js.parseInt (js_str resizeHeight))]
  else if is_value imageOperation "crop" then
    [Extract 100 100 (or400 (Js.parseInt (js_str resizeWidth)))
                     (or400 (Js.parseInt (js_str resizeHeight)))]
  else if is_value imageOperation "filter" then [Grayscale]
  else [].

(** the body of [/api/image] *)
Definition image_request (imageOperation rotationAngle resizeWidth resizeHeight : option string)
           (file : option upload) (now : Z) : M fsys eresponse :=
  match file with
  | None => ret (Err400 no_file_msg)
  | Some f =>
      let ext := Path.fromExt (originalname f) in
      let outputFilename := OutName "edited" now ext in
      _ <- mkdir_downloads ;;
      let ops := image_ops imageOperation rotationAngle resizeWidth resizeHeight in
      bytes <- lift (sharp_toFile (udata f) ops) ;;
      _ <- write_out outputFilename (SharpOut (udata f) ops bytes) ;;
      _ <- unlink_upload (upath f) ;;
      ret (Done outputFilename ("Image " ++ js_str imageOperation ++ "d successfully")%string)
  end.

End Endpoints.

End Web.

(** sample library behaviour and requests *)
Module Demo.
Import Web.

Definition demo_pdf (_ : string) : res (list pdf_page) :=
  Ok [mk_page 600 800 []; mk_page 300 400 []].
Definition demo_draw (_ : string) : res unit := Ok tt.
Definition demo_sharp (_ : string) (_ : list sharp_op) : res string := Ok "bytes"%string.
Definition demo_docx (_ : string) : res string := Ok "hello"%string.
Definition demo_utf8 (d : string) : string := d.
Definition demo_upload (name : string) : upload :=
  mk_upload "uploads/1-doc" name "hello".
Definition demo_fs : fsys := mk_fs ["uploads/1-doc"%string] [] true.
(** the same server before any request created [downloads/] *)
Definition demo_fresh_fs : fsys := mk_fs ["uploads/1-doc"%string] [] false.

End Demo.

(** ** Proofs *)

Section Proofs.
Context {Page : Type}.
Variable blank : Page.
Implicit Types (doc : list Page) (st : @store Page).

Ltac run_m :=
  unfold bind, ret, throw, lift, write_file, mkdir_downloads, create_zip in *; simpl in *.


Lemma filter_zs_ge (T s : Z) (n : nat) :
  T <= s -> filter (fun p => p <? T) (zs s n) = [].
Proof.
  revert s; induction n as [|n IH]; intros s Hs; simpl; [reflexivity|].
  destruct (s <? T) eqn:E; [apply Z.ltb_lt in E; lia|]. apply IH; lia.
Qed.

Lemma for_loop_interval (n : nat) (s e T : Z) :
  s + Z.of_nat n <= e + 1 ->
  for_loop n s (fun p => (p <=? e) && (p <? T)) = filter (fun p => p <? T) (zs s n).
Proof.
  revert s; induction n as [|n IH]; intros s Hs; simpl; [reflexivity|].
  assert (E1 : (s <=? e) = true) by (apply Z.leb_le; lia). rewrite E1; simpl.
  destruct (s <? T) eqn:E2.
  - f_equal. apply IH; lia.
  - symmetry; apply filter_zs_ge. apply Z.ltb_ge in E2; lia.
Qed.

Lemma for_loop_lt (n : nat) (s e : Z) :
  s + Z.of_nat n <= e -> for_loop n s (fun p => p <? e) = zs s n.
Proof.
  revert s; induction n as [|n IH]; intros s Hs; simpl; [reflexivity|].
  assert (E : (s <? e) = true) by (apply Z.ltb_lt; lia). rewrite E.
  f_equal. apply IH; lia.
Qed.

Lemma map_pred_zs (a : Z) (n : nat) :
  map (fun i => i - 1) (zs a n) = zs (a - 1) n.
Proof.
  revert a; induction n as [|n IH]; intro a; simpl; [reflexivity|].
  f_equal. rewrite IH. f_equal; lia.
Qed.

Lemma zs_S (s : Z) (n : nat) : zs s (S n) = zs s n ++ [s + Z.of_nat n].
Proof.
  revert s; induction n as [|n IH]; intro s.
  - simpl. f_equal; f_equal; lia.
  - change (zs s (S (S n))) with (s :: zs (s + 1) (S n)).
    rewrite (IH (s + 1)). simpl. do 3 f_equal. lia.
Qed.

Lemma skipn_nth_cons (l : list Page) (k : nat) (x : Page) :
  nth_error l k = Some x -> skipn k l = x :: skipn (S k) l.
Proof.
  revert k; induction l as [|y l IH]; intros [|k] H; simpl in *; try discriminate.
  - injection H as ->. reflexivity.
  - apply IH; assumption.
Qed.

Lemma firstn_app_skipn (a b : nat) (l : list Page) :
  firstn a l ++ firstn b (skipn a l) = firstn (a + b) l.
Proof.
  revert l; induction a as [|a IH]; intros [|x l]; simpl;
    try reflexivity; try (rewrite firstn_nil; reflexivity).
  f_equal. apply IH.
Qed.

Lemma add_pages_copy_group doc (acc : list Page) (g : list Z) st :
  add_pages doc acc g st =
  match copy_group doc g with
  | Some pg => (st, Ok (acc ++ pg))
  | None => (st, Err copy_error_msg)
  end.
Proof.
  revert acc; induction g as [|p g IH]; intro acc; simpl.
  - run_m. rewrite app_nil_r. reflexivity.
  - unfold copy_page. destruct (p <? 0); [reflexivity|].
    destruct (nth_error doc (Z.to_nat p)) as [x|]; [|reflexivity].
    run_m. rewrite IH. destruct (copy_group doc g); [|reflexivity].
    rewrite <- app_assoc. reflexivity.
Qed.

Lemma copy_group_zs doc (s : Z) (n : nat) :
  0 <= s -> (n = 0%nat \/ (Z.to_nat s + n <= List.length doc)%nat) ->
  copy_group doc (zs s n) = Some (firstn n (skipn (Z.to_nat s) doc)).
Proof.
  revert s; induction n as [|n IH]; intros s Hs Hn; simpl; [reflexivity|].
  destruct Hn as [Hn|Hn]; [discriminate|].
  assert (E : (s <? 0) = false) by (apply Z.ltb_ge; lia). rewrite E.
  destruct (nth_error doc (Z.to_nat s)) as [x|] eqn:Hx.
  - rewrite IH by lia. rewrite (skipn_nth_cons _ _ _ Hx).
    replace (Z.to_nat (s + 1)) with (S (Z.to_nat s)) by lia. reflexivity.
  - apply nth_error_None in Hx. lia.
Qed.


Lemma for_loop_lt_exact (s e : Z) :
  for_loop (Z.to_nat (e - s)) s (fun p => p <? e) = zs s (Z.to_nat (e - s)).
Proof.
  destruct (Z_le_gt_dec e s) as [H|H].
  - replace (Z.to_nat (e - s)) with 0%nat by lia. reflexivity.
  - apply for_loop_lt. lia.
Qed.

Lemma bind_lift_ok {S A B : Type} (a : A) (k : A -> M S B) (s : S) :
  bind (lift (Ok a)) k s = k a s.
Proof. reflexivity. Qed.




Lemma length_save (l : list Page) : List.length (save blank l) = Nat.max 1 (List.length l).
Proof. destruct l; reflexivity. Qed.

Lemma save_nonempty (l : list Page) : l <> [] -> save blank l = l.
Proof. destruct l; [contradiction|reflexivity]. Qed.

Lemma list_sum_save (parts : list (list Page)) :
  list_sum (map (fun part => List.length (save blank part)) parts) =
  (list_sum (map (@List.length Page) parts) + empty_parts parts)%nat.
Proof.
  unfold empty_parts. induction parts as [|[|x l] parts IH]; [reflexivity| |];
    simpl in *; lia.
Qed.


Lemma split_pages_loop_err doc (T now : Z) (ranges : list string) :
  forall i st st' e,
  split_pages_loop blank doc T now i ranges st = (st', Err e) ->
  dl_exists st' = dl_exists st /\ exists pre, dl_files st' = dl_files st ++ written now i pre.
Proof.
  induction ranges as [|r ranges IH]; intros i st st' e H; cbn [split_pages_loop] in H.
  - run_m. discriminate.
  - unfold bind at 1 in H. rewrite add_pages_copy_group in H.
    destruct (copy_group doc (resolve T (parse_token r))) as [part|].
    + run_m. destruct (dl_exists st) eqn:Ed.
      * match type of H with
        | context [split_pages_loop _ _ _ _ _ _ ?s0] =>
            destruct (split_pages_loop blank doc T now (i + 1) ranges s0)
              as [s2 [a|e2]] eqn:Hl
        end; [discriminate|].
        injection H as <- <-. destruct (IH _ _ _ _ Hl) as [Hd [pre Hp]].
        simpl in Hd, Hp. split; [congruence|].
        exists (save blank part :: pre). rewrite Hp, <- app_assoc. reflexivity.
      * injection H as <- <-. split; [congruence|]. exists []. rewrite app_nil_r. reflexivity.
    + injection H as <- <-. split; [congruence|]. exists []. rewrite app_nil_r. reflexivity.
Qed.

Lemma split_size_loop_ok doc (now P c : Z) (f : nat) :
  forall i (fs : list (fname * content)),
  0 <= i -> i + Z.of_nat f <= P -> 0 <= c ->
  let T := Z.of_nat (List.length doc) in
  split_size_loop blank doc T now P c f i (mk_store true fs) =
  (mk_store true (fs ++ written now i (map (save blank) (map (size_pages doc T c) (zs i f)))),
   Ok (map fst (written now i (map (save blank) (map (size_pages doc T c) (zs i f)))))).
Proof.
  induction f as [|f IH]; intros i fs Hi Hf Hc T; cbn [split_size_loop].
  - simpl. rewrite app_nil_r. reflexivity.
  - assert (E : (i <? P) = true) by (apply Z.ltb_lt; lia). rewrite E.
    unfold bind at 1. rewrite add_pages_copy_group.
    unfold size_part. rewrite for_loop_lt_exact.
    assert (Hic : 0 <= i * c) by nia.
    rewrite copy_group_zs.
    + run_m. rewrite IH by lia. rewrite <- app_assoc. reflexivity.
    + exact Hic.
    + remember (i * c) as ic. subst T. lia.
Qed.

Lemma split_size_loop_err doc (T now P c : Z) (f : nat) :
  forall i st st' e,
  split_size_loop blank doc T now P c f i st = (st', Err e) ->
  dl_exists st' = dl_exists st /\ exists pre, dl_files st' = dl_files st ++ written now i pre.
Proof.
  induction f as [|f IH]; intros i st st' e H; cbn [split_size_loop] in H.
  - run_m. discriminate.
  - destruct (i <? P); [|run_m; discriminate].
    unfold bind at 1 in H. rewrite add_pages_copy_group in H.
    destruct (copy_group doc (size_part T c i)) as [part|].
    + run_m. destruct (dl_exists st) eqn:Ed.
      * match type of H with
        | context [split_size_loop _ _ _ _ _ _ _ _ ?s0] =>
            destruct (split_size_loop blank doc T now P c f (i + 1) s0)
              as [s2 [a|e2]] eqn:Hl
        end; [discriminate|].
        injection H as <- <-. destruct (IH _ _ _ _ Hl) as [Hd [pre Hp]].
        simpl in Hd, Hp. split; [congruence|].
        exists (save blank part :: pre). rewrite Hp, <- app_assoc. reflexivity.
      * injection H as <- <-. split; [congruence|]. exists []. rewrite app_nil_r. reflexivity.
    + injection H as <- <-. split; [congruence|]. exists []. rewrite app_nil_r. reflexivity.
Qed.

Lemma copy_all_pages doc : copy_group doc (getPageIndices doc) = Some doc.
Proof.
  unfold getPageIndices. rewrite copy_group_zs by lia.
  simpl. rewrite firstn_all. reflexivity.
Qed.

Lemma merge_loop_ok (fs : list (list Page)) :
  forall acc st, merge_loop acc (map Ok fs) st = (st, Ok (acc ++ List.concat fs)).
Proof.
  induction fs as [|pdf fs IH]; intros acc st; cbn [map merge_loop List.concat].
  - unfold ret. rewrite app_nil_r. reflexivity.
  - unfold bind, lift, ret. cbv beta iota.
    rewrite add_pages_copy_group, copy_all_pages. cbv beta iota.
    rewrite IH, app_nil_l, app_assoc. reflexivity.
Qed.

Lemma merge_loop_state (files : list (res (list Page))) :
  forall acc st, fst (merge_loop acc files st) = st.
Proof.
  induction files as [|[pdf|e] files IH]; intros acc st; cbn [merge_loop].
  - reflexivity.
  - unfold bind, lift, ret. cbv beta iota. rewrite add_pages_copy_group.
    destruct (copy_group pdf (getPageIndices pdf)); cbv beta iota; [apply IH|reflexivity].
  - reflexivity.
Qed.

Lemma merge_loop_err (pre : list (list Page)) (e : string) (post : list (res (list Page))) :
  forall acc st, merge_loop acc (map Ok pre ++ Err e :: post) st = (st, Err e).
Proof.
  induction pre as [|pdf pre IH]; intros acc st; cbn [map app merge_loop].
  - reflexivity.
  - unfold bind at 1 2, lift at 1, ret at 1. cbv beta iota.
    rewrite add_pages_copy_group, copy_all_pages. cbv beta iota. apply IH.
Qed.

Lemma ceil_div_bounds (T P : Z) :
  0 < P -> 0 <= T -> 0 <= ceil_div T P /\ T <= P * ceil_div T P.
Proof.
  intros HP HT. unfold ceil_div.
  pose proof (Z.div_mod (T + P - 1) P ltac:(lia)) as Hd.
  pose proof (Z.mod_pos_bound (T + P - 1) P HP) as Hm.
  pose proof (Z.div_pos (T + P - 1) P ltac:(lia) HP) as Hq.
  split; [assumption|].
  remember ((T + P - 1) / P) as q. remember ((T + P - 1) mod P) as r. lia.
Qed.

Lemma concat_size_pages doc (c : Z) (K : nat) :
  0 <= c ->
  let T := Z.of_nat (List.length doc) in
  List.concat (map (size_pages doc T c) (zs 0 K)) =
  firstn (Z.to_nat (Z.min (Z.of_nat K * c) T)) doc.
Proof.
  intros Hc T. induction K as [|K IH].
  - simpl. replace (Z.to_nat (Z.min 0 T)) with 0%nat by lia. reflexivity.
  - replace (Z.of_nat (S K) * c) with (Z.of_nat K * c + c) by lia.
    rewrite zs_S, map_app, concat_app, IH. cbn [map List.concat].
    rewrite app_nil_r.
    unfold size_pages. replace (0 + Z.of_nat K) with (Z.of_nat K) by lia.
    assert (Hk : 0 <= Z.of_nat K * c) by nia.
    remember (Z.of_nat K * c) as kc.
    destruct (Z_le_gt_dec T kc) as [Hle|Hgt].
    + rewrite skipn_all2 by (subst T; lia).
      rewrite firstn_nil, app_nil_r.
      replace (Z.min (kc + c) T) with (Z.min kc T) by lia. reflexivity.
    + replace (Z.to_nat (Z.min kc T)) with (Z.to_nat kc) by lia.
      rewrite firstn_app_skipn.
      replace (Z.to_nat kc + Z.to_nat (Z.min (kc + c) T - kc))%nat
        with (Z.to_nat (Z.min (kc + c) T)) by lia. reflexivity.
Qed.

Lemma length_size_pages doc (c k : Z) :
  0 <= c -> 0 <= k ->
  let T := Z.of_nat (List.length doc) in
  Z.of_nat (List.length (size_pages doc T c k)) = Z.min c (Z.max 0 (T - k * c)).
Proof.
  intros Hc Hk T. unfold size_pages.
  rewrite length_firstn, length_skipn.
  assert (Hkc : 0 <= k * c) by nia.
  remember (k * c) as kc. subst T. lia.
Qed.

Lemma nth_map_zs (g : Z -> list Page) (s : Z) (n i : nat) :
  (i < n)%nat -> nth i (map g (zs s n)) [] = g (s + Z.of_nat i).
Proof.
  revert s i; induction n as [|n IH]; intros s i Hi; [lia|].
  destruct i as [|i]; simpl.
  - f_equal; lia.
  - rewrite IH by lia. f_equal; lia.
Qed.

Lemma length_zs (s : Z) (n : nat) : List.length (zs s n) = n.
Proof. revert s; induction n; intro s; simpl; auto. Qed.

Lemma length_written (now i : Z) (parts : list (list Page)) :
  List.length (map fst (written now i parts)) = List.length parts.
Proof.
  revert i; induction parts as [|x parts IH]; intro i; simpl; auto.
Qed.




Lemma resolve_interval_eq (T a b : Z) :
  resolve T (Interval (Some a) (Some b)) = interval_spec T a b.
Proof.
  unfold resolve, interval_spec. rewrite map_pred_zs.
  replace (b - 1 - (a - 1) + 1) with (b - a + 1) by lia.
  destruct (Z_le_gt_dec (b - a + 1) 0) as [H|H].
  - replace (Z.to_nat (b - a + 1)) with 0%nat by lia. reflexivity.
  - apply for_loop_interval. lia.
Qed.



Lemma merge_handler_ok (fs : list (list Page)) now st :
  (2 <= List.length fs)%nat ->
  merge_handler blank (Some (map Ok fs)) now st =
  (mk_store true (dl_files st ++ [(MergedPdf now, Pdf (save blank (List.concat fs)))]),
   Success (MergedPdf now) (MergedN (List.length fs))).
Proof.
  intro Hg. unfold merge_handler, handle, merge_request. rewrite length_map.
  replace (Nat.ltb (List.length fs) 2) with false by (symmetry; apply Nat.ltb_ge; lia).
  unfold bind at 1. rewrite merge_loop_ok. run_m. reflexivity.
Qed.

Lemma merge_handler_load_error (pre : list (list Page)) (e : string)
      (post : list (res (list Page))) now st :
  (2 <= List.length pre + S (List.length post))%nat ->
  merge_handler blank (Some (map Ok pre ++ Err e :: post)) now st = (st, Status500 e).
Proof.
  intro Hg. unfold merge_handler, handle, merge_request.
  rewrite length_app, length_map. cbn [List.length].
  replace (Nat.ltb (List.length pre + S (List.length post)) 2) with false
    by (symmetry; apply Nat.ltb_ge; lia).
  unfold bind at 1. rewrite merge_loop_err. reflexivity.
Qed.



(** ** Claims *)

(** C1: an interval token [Interval(a,b)] resolves to exactly
    [[i-1 for i in a..b if i-1 < totalPages]] (1-based inclusive bounds),
    and to the empty group whenever [a > b]. *)
Theorem interval_resolution (totalPages a b : Z) :
  resolve totalPages (Interval (Some a) (Some b)) = interval_spec totalPages a b /\
  (a <= b \/ resolve totalPages (Interval (Some a) (Some b)) = []).
Proof.
  split; [apply resolve_interval_eq|].
  destruct (Z_le_gt_dec a b) as [H|H]; [left; exact H|right].
  simpl. replace (Z.to_nat (b - 1 - (a - 1) + 1)) with 0%nat by lia. reflexivity.
Qed.

(** C3 (amended): with [downloads/] present, splitting a document of [T]
    pages into [P >= 1] parts writes exactly [P] part files, in page order,
    whose document pages concatenate to the document; part [i] (0-based)
    holds [min(ceil(T/P), max(0, T - i*ceil(T/P)))] pages of the document,
    and a part holding none is saved as one blank page, so part [i]'s file
    has [max(1, ..)] pages and the files' page counts sum to [T] plus the
    number of such parts. *)
Theorem split_by_size_parts doc (np : string) (P now : Z) st :
  Js.parseInt np = Some P -> truthy (Some np) = true -> 1 <= P -> dl_exists st = true ->
  let T := Z.of_nat (List.length doc) in
  let c := ceil_div T P in
  exists parts,
    split_handler blank (size_body np) (Some (Ok doc)) now st =
      (mk_store true (dl_files st ++ written now 0 (map (save blank) parts) ++
                      [(SplitZip now, Zip (map fst (written now 0 (map (save blank) parts))))]),
       Success (SplitZip now) (SplitInto (List.length parts))) /\
    Z.of_nat (List.length parts) = P /\
    List.concat parts = doc /\
    (forall i, (i < List.length parts)%nat ->
       Z.of_nat (List.length (nth i parts [])) = Z.min c (Z.max 0 (T - Z.of_nat i * c)) /\
       Z.of_nat (List.length (save blank (nth i parts []))) =
         Z.max 1 (Z.min c (Z.max 0 (T - Z.of_nat i * c)))) /\
    list_sum (map (fun part => List.length (save blank part)) parts) =
      (List.length doc + empty_parts parts)%nat.
Proof.
  intros Hp Ht HP Hd T c. destruct st as [d fs]; cbn [dl_exists dl_files] in *; subst d.
  pose proof (ceil_div_bounds T P ltac:(lia) ltac:(lia)) as [Hc0 Hc1].
  exists (map (size_pages doc T c) (zs 0 (Z.to_nat P))).
  assert (Hcat : List.concat (map (size_pages doc T c) (zs 0 (Z.to_nat P))) = doc).
  { rewrite concat_size_pages by exact Hc0. fold T.
    replace (Z.min (Z.of_nat (Z.to_nat P) * c) T) with T.
    - subst T. rewrite Nat2Z.id. apply firstn_all.
    - rewrite Z2Nat.id by lia. subst c. lia. }
  split; [|split; [|split; [exact Hcat|split]]].
  - unfold split_handler, handle, split_request, size_body.
    cbn [splitOption pageRanges numParts field]. rewrite bind_lift_ok. cbv beta.
    rewrite Ht. cbn -[Js.parseInt split_size_loop]. rewrite Hp.
    unfold bind at 1. rewrite (split_size_loop_ok doc now P c (Z.to_nat P) 0) by lia.
    run_m. rewrite length_written, length_map, <- app_assoc. reflexivity.
  - rewrite length_map, length_zs. lia.
  - intros i Hi. rewrite length_map, length_zs in Hi.
    rewrite nth_map_zs by exact Hi. rewrite length_save.
    assert (Hl : Z.of_nat (List.length (size_pages doc T c (0 + Z.of_nat i))) =
                 Z.min c (Z.max 0 (T - Z.of_nat i * c))).
    { rewrite length_size_pages by lia. f_equal; f_equal; f_equal; lia. }
    split; [exact Hl|]. rewrite <- Hl. lia.
  - rewrite list_sum_save, <- length_concat, Hcat. reflexivity.
Qed.

(** C4 (amended): merging an ordered list of at least two uploads that
    all load as PDFs creates [downloads/] if needed and writes one document
    holding every page of every source, sources in the given order and
    pages in their original order; when no source has a page, pdf-lib's
    [save] adds one blank page instead. So two documents of [a] and [b]
    pages give [max(1, a+b)] pages, those of the first then those of the
    second. An upload that does not load makes the request fail with 500
    and nothing is written. *)
Theorem merge_concatenates (fs : list (list Page)) now st :
  (2 <= List.length fs)%nat ->
  merge_handler blank (Some (map Ok fs)) now st =
    (mk_store true (dl_files st ++ [(MergedPdf now, Pdf (save blank (List.concat fs)))]),
     Success (MergedPdf now) (MergedN (List.length fs))) /\
  (List.concat fs <> [] -> save blank (List.concat fs) = List.concat fs) /\
  (List.concat fs = [] -> save blank (List.concat fs) = [blank]) /\
  (forall A B : list Page,
     merge_handler blank (Some [Ok A; Ok B]) now st =
       (mk_store true (dl_files st ++ [(MergedPdf now, Pdf (save blank (A ++ B)))]),
        Success (MergedPdf now) (MergedN 2)) /\
     (A ++ B <> [] -> save blank (A ++ B) = A ++ B) /\
     List.length (save blank (A ++ B)) = Nat.max 1 (List.length A + List.length B)) /\
  (forall (pre : list (list Page)) e post,
     (2 <= List.length pre + S (List.length post))%nat ->
     merge_handler blank (Some (map Ok pre ++ Err e :: post)) now st = (st, Status500 e)).
Proof.
  intro H. split; [apply merge_handler_ok; exact H|].
  split; [apply save_nonempty|].
  split; [intros ->; reflexivity|].
  split; [|intros pre e post Hl; apply merge_handler_load_error; exact Hl].
  intros A B. split; [|split; [apply save_nonempty|rewrite length_save, length_app; reflexivity]].
  rewrite (merge_handler_ok [A; B]) by (simpl; lia). simpl. rewrite app_nil_r. reflexivity.
Qed.



(** C8: a merge request with fewer than two files (none, or exactly one)
    is answered 400 with "At least 2 files required for merging", and
    nothing is written. *)
Theorem merge_needs_two_files (files : option (list (res (list Page)))) now st :
  (files = None \/ exists fs, files = Some fs /\ (List.length fs < 2)%nat) ->
  merge_handler blank files now st = (st, Status400 merge_min_msg).
Proof.
  intros [->|[fs [-> Hl]]]; unfold merge_handler, handle, merge_request; [reflexivity|].
  replace (Nat.ltb (List.length fs) 2) with true by (symmetry; apply Nat.ltb_lt; exact Hl).
  reflexivity.
Qed.

(** C9 (amended): a split request answered 500 (a page copy that throws,
    an upload that does not load, or a part file that cannot be written)
    writes no archive, but keeps the part files it wrote before the
    failure; a merge request writes its single output only after its copy
    loop, so a merge answered 500 (such as one with an upload that does
    not load, even after other sources were copied) leaves the downloads
    unchanged. *)
Theorem failed_split_keeps_earlier_parts (body : split_body) (file : option (res (list Page)))
        now st st' e :
  split_handler blank body file now st = (st', Status500 e) ->
  (dl_exists st' = dl_exists st /\ exists pre, dl_files st' = dl_files st ++ written now 0 pre) /\
  (forall files now' st0 st0' e',
     merge_handler blank files now' st0 = (st0', Status500 e') -> st0' = st0) /\
  (forall (pre : list (list Page)) e' post now' st0,
     (2 <= List.length pre + S (List.length post))%nat ->
     merge_handler blank (Some (map Ok pre ++ Err e' :: post)) now' st0 = (st0, Status500 e')).
Proof.
  intro H. split; [|split].
  - unfold split_handler, handle, split_request in H.
    destruct file as [[doc|e0]|]; [|run_m; injection H as <- <-;
                                     split; [reflexivity|exists []; rewrite app_nil_r; reflexivity]
                                   |run_m; discriminate].
    rewrite bind_lift_ok in H. cbv beta in H.
    set (T := Z.of_nat (List.length doc)) in H.
    unfold bind at 1 in H.
    destruct (is_value (splitOption body) "pages" && truthy (pageRanges body)).
    + destruct (split_pages_loop blank doc T now 0 (parse_ranges (field (pageRanges body))) st)
        as [s1 [outs|e1]] eqn:Hl.
      * run_m. destruct (dl_exists s1); discriminate.
      * injection H as <- <-. eapply split_pages_loop_err; exact Hl.
    + destruct (is_value (splitOption body) "size" && truthy (numParts body)).
      2: { run_m. destruct (dl_exists st); discriminate. }
      destruct (Js.parseInt (field (numParts body))) as [parts|].
      2: { run_m. destruct (dl_exists st); discriminate. }
      destruct (split_size_loop blank doc T now parts (ceil_div T parts) (Z.to_nat parts) 0 st)
        as [s1 [outs|e1]] eqn:Hl.
      * run_m. destruct (dl_exists s1); discriminate.
      * injection H as <- <-. eapply split_size_loop_err; exact Hl.
  - intros files now' st0 st0' e' Hm.
    unfold merge_handler, handle, merge_request in Hm.
    destruct files as [fs|]; [|run_m; discriminate].
    destruct (Nat.ltb (List.length fs) 2); [run_m; discriminate|].
    unfold bind at 1 in Hm.
    pose proof (merge_loop_state fs [] st0) as Hs.
    destruct (merge_loop [] fs st0) as [s1 [m|e1]]; cbn [fst] in Hs; subst s1.
    + run_m. discriminate.
    + injection Hm as <- <-. reflexivity.
  - intros pre e' post now' st0 Hl. apply merge_handler_load_error. exact Hl.
Qed.


End Proofs.

(** ** Concrete runs: witnesses and counterexamples *)

(** C2: the token "0" parses to [Single(0)], whose group is [[-1]], not
    [[]]: the single-page branch checks only [pageNum < totalPages]; the
    copy of index -1 then throws and the split is answered 500. *)
Theorem single_zero_resolves_below_range :
  resolve 3 (parse_token "0") = [-1] /\
  split_handler blank_n (pages_body "0") (Some (Ok (sample 3))) 0 fresh_downloads =
    (fresh_downloads, Status500 copy_error_msg).
Proof. split; vm_compute; reflexivity. Qed.

(** C3 (counterexample): 10 pages in 7 parts give parts holding 2,2,2,2,2,0,0
    pages of the document; the last two are saved as one blank page each,
    so the written files have 2,2,2,2,2,1,1 pages, 12 in all, and two
    files other than the last differ from ceil(10/7) = 2. *)
Lemma size_split_two_short_parts :
  let files := pdfs_of (dl_files (fst (split_handler blank_n (size_body "7") (Some (Ok (sample 10))) 0
                                                      fresh_downloads))) in
  files = [[0; 1]; [2; 3]; [4; 5]; [6; 7]; [8; 9]; [blank_n]; [blank_n]]%nat /\
  map (@List.length nat) files = [2; 2; 2; 2; 2; 1; 1]%nat /\
  list_sum (map (@List.length nat) files) = 12%nat /\ ceil_div 10 7 = 2 /\
  ~ (forall i, (i < 7 - 1)%nat -> nth i (map (@List.length nat) files) 0%nat = Z.to_nat (ceil_div 10 7)).
Proof.
  intro files. split; [vm_compute; reflexivity|split; [vm_compute; reflexivity|]].
  split; [vm_compute; reflexivity|split; [vm_compute; reflexivity|]].
  intro H. specialize (H 5%nat ltac:(lia)). vm_compute in H. discriminate H.
Qed.

Lemma split_by_size_parts_witness :
  let T := Z.of_nat (List.length (sample 10)) in
  let c := ceil_div T 4 in
  exists parts,
    split_handler blank_n (size_body "4") (Some (Ok (sample 10))) 7 fresh_downloads =
      (mk_store true (dl_files fresh_downloads ++ written 7 0 (map (save blank_n) parts) ++
                      [(SplitZip 7, Zip (map fst (written 7 0 (map (save blank_n) parts))))]),
       Success (SplitZip 7) (SplitInto (List.length parts))) /\
    Z.of_nat (List.length parts) = 4 /\
    List.concat parts = sample 10 /\
    (forall i, (i < List.length parts)%nat ->
       Z.of_nat (List.length (nth i parts [])) = Z.min c (Z.max 0 (T - Z.of_nat i * c)) /\
       Z.of_nat (List.length (save blank_n (nth i parts []))) =
         Z.max 1 (Z.min c (Z.max 0 (T - Z.of_nat i * c)))) /\
    list_sum (map (fun part => List.length (save blank_n part)) parts) =
      (List.length (sample 10) + empty_parts parts)%nat.
Proof.
  apply (split_by_size_parts blank_n (sample 10) "4" 4 7 fresh_downloads);
    [reflexivity | reflexivity | lia | reflexivity].
Defined.

(** C4 (counterexample): two uploads with no page merge into a document
    of one (blank) page, not 0 + 0. *)
Lemma merge_empty_sources_blank_page :
  merge_handler blank_n (Some [Ok []; Ok []]) 0 fresh_downloads =
    (mk_store true [(MergedPdf 0, Pdf [blank_n])], Success (MergedPdf 0) (MergedN 2)) /\
  List.length [blank_n] <> (List.length (@nil nat) + List.length (@nil nat))%nat.
Proof. split; [vm_compute; reflexivity|discriminate]. Qed.

Lemma merge_concatenates_witness :
  merge_handler blank_n (Some (map Ok [sample 2; sample 3])) 0 fresh_downloads =
    (mk_store true (dl_files fresh_downloads ++
                    [(MergedPdf 0, Pdf (save blank_n (List.concat [sample 2; sample 3])))]),
     Success (MergedPdf 0) (MergedN (List.length [sample 2; sample 3]))) /\
  (List.concat [sample 2; sample 3] <> [] ->
   save blank_n (List.concat [sample 2; sample 3]) = List.concat [sample 2; sample 3]) /\
  (List.concat [sample 2; sample 3] = [] ->
   save blank_n (List.concat [sample 2; sample 3]) = [blank_n]) /\
  (forall A B : list nat,
     merge_handler blank_n (Some [Ok A; Ok B]) 0 fresh_downloads =
       (mk_store true (dl_files fresh_downloads ++ [(MergedPdf 0, Pdf (save blank_n (A ++ B)))]),
        Success (MergedPdf 0) (MergedN 2)) /\
     (A ++ B <> [] -> save blank_n (A ++ B) = A ++ B) /\
     List.length (save blank_n (A ++ B)) = Nat.max 1 (List.length A + List.length B)) /\
  (forall (pre : list (list nat)) e post,
     (2 <= List.length pre + S (List.length post))%nat ->
     merge_handler blank_n (Some (map Ok pre ++ Err e :: post)) 0 fresh_downloads =
       (fresh_downloads, Status500 e)).
Proof.
  apply (merge_concatenates blank_n [sample 2; sample 3] 0 fresh_downloads). simpl; lia.
Defined.

(** C5: "2, 0, 1" has three tokens, but the split is aborted at the
    second: "0" resolves to index -1 (the same missing lower-bound check as
    in C2), its copy throws, and the request is answered 500 with only the
    first part written. *)
Theorem zero_token_aborts_whole_split :
  List.length (parse_ranges "2, 0, 1") = 3%nat /\
  split_handler blank_n (pages_body "2, 0, 1") (Some (Ok (sample 2))) 0 fresh_downloads =
    (mk_store true [(SplitPart 1 0, Pdf [1%nat])], Status500 copy_error_msg).
Proof. split; vm_compute; reflexivity. Qed.





Lemma merge_needs_two_files_witness :
  merge_handler blank_n (Some [Ok (sample 3)]) 0 fresh_downloads =
    (fresh_downloads, Status400 merge_min_msg).
Proof.
  apply merge_needs_two_files. right. exists [Ok (sample 3)]. split; [reflexivity | simpl; lia].
Defined.

(** C9 (counterexample): splitting a 2-page document by "1,0" writes part
    1, then the copy for "0" throws: the request is answered 500 and the
    part file stays in [downloads/]. *)
Lemma split_failure_leaves_part_file :
  split_handler blank_n (pages_body "1,0") (Some (Ok (sample 2))) 0 fresh_downloads =
    (mk_store true [(SplitPart 1 0, Pdf [0%nat])], Status500 copy_error_msg) /\
  dl_files (fst (split_handler blank_n (pages_body "1,0") (Some (Ok (sample 2))) 0
                                fresh_downloads)) <> [].
Proof. split; vm_compute; [reflexivity | discriminate]. Qed.

Lemma failed_split_keeps_earlier_parts_witness :
  (dl_exists (mk_store true [(SplitPart 1 0, Pdf [0%nat])]) = dl_exists (@fresh_downloads nat) /\
   exists pre, dl_files (mk_store true [(SplitPart 1 0, Pdf [0%nat])]) =
               dl_files (@fresh_downloads nat) ++ written 0 0 pre) /\
  (forall (files : option (list (res (list nat)))) now' st0 st0' e',
     merge_handler blank_n files now' st0 = (st0', Status500 e') -> st0' = st0) /\
  (forall (pre : list (list nat)) e' post now' st0,
     (2 <= List.length pre + S (List.length post))%nat ->
     merge_handler blank_n (Some (map Ok pre ++ Err e' :: post)) now' st0 = (st0, Status500 e')).
Proof.
  apply (failed_split_keeps_earlier_parts blank_n (pages_body "1,0") (Some (Ok (sample 2))) 0
           fresh_downloads _ copy_error_msg).
  vm_compute; reflexivity.
Defined.



(** ** Further properties of the range parser and the split handler *)

Section ParserProofs.

Lemma drop_spaces_suffix (l : list ascii) : exists pre, l = pre ++ Js.drop_spaces l.
Proof.
  induction l as [|c l [pre IH]]; simpl; [exists []; reflexivity|].
  destruct (Js.is_space c); [exists (c :: pre); simpl; rewrite <- IH; reflexivity|].
  exists []; reflexivity.
Qed.

Lemma includes_app (c : ascii) (l1 l2 : list ascii) :
  Js.includes c (string_of_list_ascii (l1 ++ l2)) = false ->
  Js.includes c (string_of_list_ascii l2) = false.
Proof.
  induction l1 as [|d l1 IH]; simpl; [auto|].
  destruct (Ascii.eqb c d); [discriminate|exact IH].
Qed.

Lemma includes_trimStart (c : ascii) (s : string) :
  Js.includes c s = false -> Js.includes c (Js.trimStart s) = false.
Proof.
  intro H. unfold Js.trimStart.
  destruct (drop_spaces_suffix (list_ascii_of_string s)) as [pre Hp].
  apply (includes_app c pre). rewrite <- Hp, string_of_list_ascii_of_string. exact H.
Qed.

Lemma digit_value_nonneg (c : ascii) : 0 <= Js.digit_value c.
Proof.
  unfold Js.digit_value.
  destruct ((48 <=? _) && (_ <=? 57)) eqn:E1; [apply andb_true_iff in E1 as [E1 _]; lia|].
  destruct ((97 <=? _) && (_ <=? 122)) eqn:E2; [apply andb_true_iff in E2 as [E2 _]; lia|].
  destruct ((65 <=? _) && (_ <=? 90)) eqn:E3; [apply andb_true_iff in E3 as [E3 _]; lia|].
  lia.
Qed.

Lemma digits_from_nonneg (radix acc : Z) (s : string) :
  0 <= radix -> 0 <= acc -> 0 <= Js.digits_from radix acc s.
Proof.
  revert acc; induction s as [|c s IH]; intros acc Hr Ha; simpl; [exact Ha|].
  destruct (Js.digit_value c <? radix); [|exact Ha].
  apply IH; [exact Hr|]. pose proof (digit_value_nonneg c). nia.
Qed.

Lemma parse_digits_nonneg (radix : Z) (s : string) (n : Z) :
  0 <= radix -> Js.parse_digits radix s = Some n -> 0 <= n.
Proof.
  destruct s as [|c s]; simpl; [discriminate|].
  intros Hr H. destruct (Js.digit_value c <? radix); [|discriminate].
  injection H as <-. apply digits_from_nonneg; [exact Hr|apply digit_value_nonneg].
Qed.

(** without a ['-'] in the text, [parseInt] returns [NaN] or a number >= 0 *)
Lemma parseInt_no_minus_nonneg (s : string) (n : Z) :
  Js.includes "-"%char s = false -> Js.parseInt s = Some n -> 0 <= n.
Proof.
  intros Hm H. unfold Js.parseInt in H.
  pose proof (includes_trimStart _ _ Hm) as Ht.
  destruct (Js.trimStart s) as [|c r]; [discriminate H|].
  cbn [Js.includes] in Ht.
  destruct (Ascii.eqb "-"%char c) eqn:Ec; [discriminate Ht|].
  rewrite Ascii.eqb_sym in Ec. cbv beta iota zeta in H. rewrite Ec in H.
  repeat (cbv beta iota zeta in H;
          match type of H with
          | context [match ?x with EmptyString => _ | String _ _ => _ end] => destruct x
          | context [if ?b then _ else _] => destruct b
          end).
  all: match type of H with
       | option_map _ (Js.parse_digits ?k ?x) = Some _ =>
           let E := fresh "E" in
           destruct (Js.parse_digits k x) eqn:E;
           [cbn [option_map] in H; injection H as <-;
            apply parse_digits_nonneg in E; [destruct z; simpl in *; lia|lia]
           | discriminate H]
       end.
Qed.

Lemma split_nonempty (sep : ascii) (s : string) : Js.split sep s <> [].
Proof.
  induction s as [|c s IH]; simpl; [discriminate|].
  destruct (Ascii.eqb c sep); [discriminate|].
  destruct (Js.split sep s); discriminate.
Qed.

Lemma split_no_sep (sep : ascii) (s : string) :
  Js.includes sep s = false -> Js.split sep s = [s].
Proof.
  induction s as [|c s IH]; cbn [Js.split Js.includes]; intro H; [reflexivity|].
  rewrite Ascii.eqb_sym. destruct (Ascii.eqb sep c); [discriminate H|].
  rewrite (IH H). reflexivity.
Qed.

Lemma split_app_sep (sep : ascii) (a rest : string) :
  Js.includes sep a = false ->
  Js.split sep (a ++ String sep rest) = a :: Js.split sep rest.
Proof.
  induction a as [|c a IH]; cbn [Js.split Js.includes append]; intro H.
  - rewrite Ascii.eqb_refl. reflexivity.
  - rewrite Ascii.eqb_sym. destruct (Ascii.eqb sep c); [discriminate H|].
    rewrite (IH H). reflexivity.
Qed.

Lemma includes_app_sep (sep : ascii) (a rest : string) :
  Js.includes sep (a ++ String sep rest) = true.
Proof.
  induction a as [|c a IH]; cbn [Js.includes append]; [rewrite Ascii.eqb_refl; reflexivity|].
  destruct (Ascii.eqb sep c); [reflexivity|exact IH].
Qed.

End ParserProofs.

(** ** Further properties of the split handler *)

Section SplitExtras.
Context {Page : Type}.
Variable blank : Page.
Implicit Types (doc : list Page) (st : @store Page).

Ltac run_m := unfold bind, ret, throw, lift, write_file, create_zip in *; simpl in *.


Lemma split_size_loop_zero doc (T now P c : Z) (f : nat) (i : Z) st :
  f = 0%nat -> split_size_loop blank doc T now P c f i st = (st, Ok []).
Proof. intros ->. reflexivity. Qed.

End SplitExtras.

Section RangeExtras.

Lemma trim_empty : Js.trim "" = ""%string.
Proof. reflexivity. Qed.

Lemma resolve_interval_none (T : Z) (a b : option Z) :
  a = None \/ b = None -> resolve T (Interval a b) = [].
Proof. intros [-> | ->]; [reflexivity|destruct a; reflexivity]. Qed.

(** X1: a token without ['-'] selects at most one index, and that index
    lies in [[-1, totalPages)]; it is [-1] exactly when the token parses
    to 0. *)
Theorem single_token_indices (n : nat) (r : string) :
  Js.includes "-"%char r = false ->
  let T := Z.of_nat n in
  (List.length (resolve T (parse_token r)) <= 1)%nat /\
  (forall p, In p (resolve T (parse_token r)) -> -1 <= p < T) /\
  (In (-1) (resolve T (parse_token r)) <-> Js.parseInt r = Some 0).
Proof.
  intros Hm T. unfold parse_token. rewrite Hm. cbn [resolve].
  destruct (Js.parseInt r) as [z|] eqn:E.
  - pose proof (parseInt_no_minus_nonneg r z Hm E) as Hz.
    destruct (z - 1 <? T) eqn:Ez.
    + apply Z.ltb_lt in Ez. simpl. split; [lia|split].
      * intros p [<-|[]]. lia.
      * split; [intros [H|[]]; f_equal; lia|intro H; injection H as ->; left; lia].
    + apply Z.ltb_ge in Ez. simpl. split; [lia|split; [intros p []|]].
      split; [intros []|intro H; injection H as ->; subst T; lia].
  - simpl. split; [lia|split; [intros p []|split; [intros []|discriminate]]].
Qed.

(** X2: a token that opens with ['-'] (such as "-5") or whose text before
    ['-'] is followed by nothing (such as "5-") selects no page: the
    missing bound parses to [NaN]. *)
Theorem open_interval_tokens_empty (T : Z) (rest a : string) :
  Js.includes "-"%char a = false ->
  resolve T (parse_token (String "-" rest)) = [] /\
  resolve T (parse_token (a ++ "-")) = [].
Proof.
  intro Ha. split.
  - unfold parse_token. cbn [Js.includes]. rewrite Ascii.eqb_refl.
    cbn [Js.split]. rewrite Ascii.eqb_refl. cbn [map].
    rewrite trim_empty.
    destruct (map (fun n => Js.parseInt (Js.trim n)) (Js.split "-" rest)) as [|b l];
      reflexivity.
  - unfold parse_token. rewrite includes_app_sep, split_app_sep by exact Ha.
    cbn [map Js.split]. rewrite trim_empty. apply resolve_interval_none. right. reflexivity.
Qed.

(** X3: an interval token keeps only its first two ['-'] separated
    fields, each trimmed and parsed: "1-3-5" is the interval "1-3". *)
Theorem interval_token_fields (a b c : string) :
  Js.includes "-"%char a = false -> Js.includes "-"%char b = false ->
  parse_token (a ++ String "-" (b ++ String "-" c)) =
    Interval (Js.parseInt (Js.trim a)) (Js.parseInt (Js.trim b)) /\
  parse_token (a ++ String "-" b) =
    Interval (Js.parseInt (Js.trim a)) (Js.parseInt (Js.trim b)).
Proof.
  intros Ha Hb. unfold parse_token. rewrite !includes_app_sep. split.
  - rewrite split_app_sep by exact Ha. rewrite split_app_sep by exact Hb.
    reflexivity.
  - rewrite split_app_sep by exact Ha. rewrite split_no_sep by exact Hb.
    reflexivity.
Qed.

End RangeExtras.

Section SplitHandlerExtras.
Context {Page : Type}.
Variable blank : Page.
Implicit Types (doc : list Page) (st : @store Page).


(** X5: a split by size whose part count parses to [NaN] or to a number
    <= 0 is not rejected either: where [downloads/] exists it answers
    success with an archive of no part; where it does not (split never
    creates it), no archive can be created. *)
Theorem size_split_nan_or_nonpositive doc (np : string) now st :
  (Js.parseInt np = None \/ exists P, Js.parseInt np = Some P /\ P <= 0) ->
  (dl_exists st = true ->
   split_handler blank (size_body np) (Some (Ok doc)) now st =
     (mk_store true (dl_files st ++ [(SplitZip now, Zip [])]), Success (SplitZip now) (SplitInto 0))) /\
  (dl_exists st = false ->
   split_handler blank (size_body np) (Some (Ok doc)) now st = (st, ArchiveLost (SplitZip now))).
Proof.
  intro H. destruct st as [d fs]. cbn [dl_exists dl_files].
  unfold split_handler, handle, split_request, size_body.
  cbn [splitOption pageRanges numParts field]. rewrite bind_lift_ok. cbv beta.
  unfold is_value at 1. cbn -[truthy Js.parseInt split_size_loop].
  destruct (truthy (Some np)); cbn -[Js.parseInt split_size_loop];
    [|split; intros ->; reflexivity].
  destruct H as [-> | [P [-> HP]]]; [split; intros ->; reflexivity|].
  split; intros ->; unfold bind at 1; rewrite split_size_loop_zero by lia; reflexivity.
Qed.

End SplitHandlerExtras.

(** ** Properties of [cleanupOldFiles] *)

Section CleanupProofs.
Import Cleanup.

Lemma sweep_cons (clock : nat -> Z) (dir : string) (e : entry) (rest : list entry)
      (s : sweep_state) :
  sweep clock dir (e :: rest) s =
  match mtimeMs e with
  | None => (s, Err enoent)
  | Some t =>
      if maxAge <? clock (calls s) - t then
        if unlinkable e
        then sweep clock dir rest (mk_sweep (S (calls s)) (unlinked s ++ [(dir, ename e)]))
        else (mk_sweep (S (calls s)) (unlinked s), Err eperm)
      else sweep clock dir rest (mk_sweep (S (calls s)) (unlinked s))
  end.
Proof.
  cbn [sweep]. unfold bind, stat, ret, throw, date_now, unlink.
  destruct (mtimeMs e) as [t|]; [|reflexivity].
  destruct (maxAge <? clock (calls s) - t); [|reflexivity].
  destruct (unlinkable e); reflexivity.
Qed.

Lemma sweep_sound (now : Z) (dir : string) (files : list entry) :
  Forall sound files ->
  forall s,
  sweep (fun _ => now) dir files s =
    (mk_sweep (calls s + List.length files)
              (unlinked s ++ map (fun e => (dir, ename e)) (expired now files)), Ok tt).
Proof.
  induction 1 as [|e files [Hm Hu] _ IH]; intro s.
  - simpl. rewrite Nat.add_0_r, app_nil_r. destruct s; reflexivity.
  - rewrite sweep_cons. cbn [expired filter]. fold (expired now files).
    destruct (mtimeMs e) as [t|] eqn:Et; [|contradiction].
    destruct (maxAge <? now - t).
    + rewrite Hu, IH. cbn [calls unlinked map List.length].
      rewrite <- app_assoc. f_equal. f_equal. lia.
    + rewrite IH. cbn [calls unlinked List.length]. f_equal. f_equal. lia.
Qed.


Lemma sweep_dirs_cons (clock : nat -> Z) (dir : string) (listing : option (list entry))
      (rest : list (string * option (list entry))) (s : sweep_state) :
  sweep_dirs clock ((dir, listing) :: rest) s =
  sweep_dirs clock rest (match listing with
                         | Some l => fst (sweep clock dir l s)
                         | None => s
                         end).
Proof.
  cbn [sweep_dirs]. unfold bind at 1, swallow.
  destruct listing as [l|]; reflexivity.
Qed.

(** X6: when [Date.now()] reads [now] throughout and every [stat] and
    [unlink] succeeds, [cleanupOldFiles] removes from [uploads] and then
    from [downloads] exactly the files modified more than an hour
    (3600000 ms) before [now]; a file exactly one hour old is kept. *)
Theorem cleanup_removes_expired (now : Z) (ups downs : list entry) (s : sweep_state) :
  Forall sound ups -> Forall sound downs ->
  unlinked (fst (cleanupOldFiles (fun _ => now) (Some ups) (Some downs) s)) =
    unlinked s ++ map (fun e => ("uploads"%string, ename e)) (expired now ups) ++
    map (fun e => ("downloads"%string, ename e)) (expired now downs) /\
  (forall e, In e (expired now ups ++ expired now downs) ->
     exists t, mtimeMs e = Some t /\ now - t > maxAge).
Proof.
  intros Hu Hd. split.
  - unfold cleanupOldFiles. rewrite !sweep_dirs_cons, !sweep_sound by assumption.
    cbn. rewrite app_assoc. reflexivity.
  - intros e He. apply in_app_or in He.
    destruct He as [He|He]; unfold expired in He; apply filter_In in He as [_ He];
      destruct (mtimeMs e) as [t|]; try discriminate;
      exists t; (split; [reflexivity|apply Z.ltb_lt in He; lia]).
Qed.


End CleanupProofs.

(** ** Properties of the extension the handlers dispatch on *)

Section PathProofs.
Import Path.











Lemma includes_false_Forall (d : ascii) (s : string) :
  Js.includes d s = false ->
  Forall (fun c => Ascii.eqb c d = false) (list_ascii_of_string s).
Proof.
  induction s as [|c s IH]; simpl; intro H; constructor.
  - rewrite Ascii.eqb_sym. destruct (Ascii.eqb d c); [discriminate|reflexivity].
  - apply IH. destruct (Ascii.eqb d c); [discriminate|exact H].
Qed.

Lemma scan_plain_started (l rest : list ascii) :
  plain l -> forall i st, startDot st = -1 -> end_ st <> -1 ->
  scan (l ++ rest) i st = scan rest (i - Z.of_nat (List.length l)) st.
Proof.
  induction 1 as [|c l [Hd Hs] _ IH]; intros i st H1 H2.
  - simpl. f_equal. lia.
  - cbn [app scan]. rewrite Hs, Hd.
    replace (end_ st =? -1) with false by (symmetry; apply Z.eqb_neq; exact H2).
    rewrite H1. cbn [negb Z.eqb]. rewrite IH by assumption.
    f_equal. cbn [List.length]. lia.
Qed.

Lemma scan_plain_first (l rest : list ascii) (i : Z) (st : ext_scan) :
  plain l -> l <> [] -> 0 <= i -> startDot st = -1 -> end_ st = -1 ->
  scan (l ++ rest) i st =
  scan rest (i - Z.of_nat (List.length l))
       (mk_scan (-1) (startPart st) (i + 1) false (preDotState st)).
Proof.
  intros Hp Hne Hi H1 H2. destruct Hp as [|c l [Hd Hs] Hp]; [contradiction|].
  cbn [app scan]. rewrite Hs, Hd, H2, H1.
  cbn [Z.eqb Pos.eqb negb startDot startPart end_ matchedSlash preDotState].
  rewrite scan_plain_started by (try assumption; simpl; lia).
  f_equal. cbn [List.length]. lia.
Qed.

Lemma scan_dot_first (rest : list ascii) (i sp e : Z) (ms : bool) (pds : Z) :
  e <> -1 ->
  scan ("."%char :: rest) i (mk_scan (-1) sp e ms pds) =
  scan rest (i - 1) (mk_scan i sp e ms pds).
Proof.
  intro He. cbn [scan]. replace (Ascii.eqb "." "/") with false by reflexivity.
  replace (Ascii.eqb "." ".") with true by reflexivity.
  cbn [end_ startDot]. replace (e =? -1) with false by (symmetry; apply Z.eqb_neq; exact He).
  reflexivity.
Qed.

Lemma scan_dotted (l : list ascii) :
  Forall (fun c => Ascii.eqb c "/"%char = false) l ->
  forall i st, startDot st <> -1 -> end_ st <> -1 ->
  startDot (scan l i st) = startDot st /\ end_ (scan l i st) = end_ st /\
  startPart (scan l i st) = startPart st /\
  (l <> [] \/ preDotState st <> 0 -> preDotState (scan l i st) <> 0).
Proof.
  induction 1 as [|c l Hs _ IH]; intros i st H1 H2.
  - simpl. split; [reflexivity|split; [reflexivity|split; [reflexivity|]]].
    intros [H|H]; [contradiction|exact H].
  - cbn [scan]. rewrite Hs.
    replace (end_ st =? -1) with false by (symmetry; apply Z.eqb_neq; exact H2).
    replace (startDot st =? -1) with false by (symmetry; apply Z.eqb_neq; exact H1).
    destruct (Ascii.eqb c "."%char).
    + destruct (negb (preDotState st =? 1)) eqn:Ep.
      * destruct (IH (i - 1) (mk_scan (startDot st) (startPart st) (end_ st) (matchedSlash st) 1))
          as [A [B [C D]]]; simpl; try assumption.
        split; [exact A|split; [exact B|split; [exact C|]]].
        intros _. apply D. right. discriminate.
      * destruct (IH (i - 1) st) as [A [B [C D]]]; try assumption.
        split; [exact A|split; [exact B|split; [exact C|]]].
        intros _. apply D. right. apply negb_false_iff, Z.eqb_eq in Ep. lia.
    + destruct (IH (i - 1) (mk_scan (startDot st) (startPart st) (end_ st) (matchedSlash st) (-1)))
        as [A [B [C D]]]; simpl; try assumption.
      split; [exact A|split; [exact B|split; [exact C|]]].
      intros _. apply D. right. discriminate.
Qed.

Lemma scan_no_dot (l : list ascii) :
  Forall (fun c => Ascii.eqb c "."%char = false) l ->
  forall i st, startDot st = -1 -> startDot (scan l i st) = -1.
Proof.
  induction 1 as [|c l Hd _ IH]; intros i st H1; [exact H1|].
  cbn [scan]. rewrite Hd.
  destruct (Ascii.eqb c "/"%char); [destruct (negb (matchedSlash st)); [exact H1|apply IH; exact H1]|].
  apply IH. destruct (end_ st =? -1); simpl; rewrite H1; simpl; try rewrite H1; reflexivity.
Qed.

Lemma list_ascii_app (a b : string) :
  list_ascii_of_string (a ++ b) = list_ascii_of_string a ++ list_ascii_of_string b.
Proof. induction a as [|c a IH]; simpl; [reflexivity|rewrite IH; reflexivity]. Qed.

Lemma length_list_ascii (s : string) :
  List.length (list_ascii_of_string s) = String.length s.
Proof. induction s as [|c s IH]; simpl; [reflexivity|rewrite IH; reflexivity]. Qed.

Lemma substring_all (s : string) : substring 0 (String.length s) s = s.
Proof. induction s as [|c s IH]; simpl; [reflexivity|rewrite IH; reflexivity]. Qed.

Lemma substring_app_r (a b : string) :
  substring (String.length a) (String.length b) (a ++ b) = b.
Proof. induction a as [|c a IH]; simpl; [apply substring_all|exact IH]. Qed.

Lemma plain_of_includes (s : string) :
  Js.includes "."%char s = false -> Js.includes "/"%char s = false ->
  plain (list_ascii_of_string s).
Proof.
  intros H1 H2. apply includes_false_Forall in H1, H2.
  unfold plain. rewrite Forall_forall in *. intros c Hc. split; auto.
Qed.

Lemma str_length_app (a b : string) :
  String.length (a ++ b) = (String.length a + String.length b)%nat.
Proof. induction a as [|c a IH]; simpl; [reflexivity|rewrite IH; reflexivity]. Qed.

Lemma rev_nonempty_string (s : string) : s <> ""%string -> rev (list_ascii_of_string s) <> [].
Proof.
  destruct s as [|c s]; [contradiction|]. intros _. simpl.
  intro H. apply app_eq_nil in H as [_ H]. discriminate.
Qed.

(** X9: for a name [base.e] with a non-empty [base] and an extension [e]
    that has no ['.'] (and no ['/'] in the name), the handlers see [e] in
    lower case; a dot file [.e] (such as ".png") and a name with no ['.']
    have the extension "". *)
Theorem fromExt_shapes (base e : string) :
  base <> ""%string -> Js.includes "/"%char base = false ->
  e <> ""%string -> Js.includes "."%char e = false -> Js.includes "/"%char e = false ->
  fromExt (base ++ String "." e) = toLowerCase e /\
  fromExt (String "." e) = ""%string /\
  (Js.includes "."%char base = false -> fromExt base = ""%string).
Proof.
  intros Hb Hbs He Hed Hes.
  pose proof (plain_of_includes e Hed Hes) as Hpe.
  assert (Hpe' : plain (rev (list_ascii_of_string e))) by (apply Forall_rev; exact Hpe).
  assert (Hne : rev (list_ascii_of_string e) <> []).
  { apply rev_nonempty_string. exact He. }
  assert (Hbs' : Forall (fun c => Ascii.eqb c "/"%char = false)
                        (rev (list_ascii_of_string base))).
  { apply Forall_rev. apply includes_false_Forall in Hbs.
    rewrite Forall_forall in *. intros c Hc. auto. }
  split; [|split].
  - unfold fromExt, extname.
    rewrite list_ascii_app. cbn [list_ascii_of_string]. rewrite rev_app_distr.
    cbn [rev]. rewrite <- app_assoc. cbn [app].
    set (n := Z.of_nat (String.length (base ++ String "." e))).
    assert (Hn : n = Z.of_nat (String.length base) + 1 + Z.of_nat (String.length e))
      by (subst n; rewrite str_length_app; simpl String.length; lia).
    assert (He1 : (1 <= String.length e)%nat) by (destruct e; [contradiction|simpl; lia]).
    rewrite scan_plain_first by (try assumption; try reflexivity; lia).
    cbn [startDot startPart end_ preDotState scan_init].
    rewrite scan_dot_first by lia.
    rewrite length_rev, length_list_ascii.
    destruct (scan_dotted _ Hbs' (n - 1 - Z.of_nat (String.length e) - 1)
                (mk_scan (n - 1 - Z.of_nat (String.length e)) 0 (n - 1 + 1) false 0))
      as [A [B [C D]]]; cbn [startDot end_]; [lia|lia|].
    cbn [startDot end_ startPart preDotState] in A, B, C, D.
    assert (Hd : preDotState (scan (rev (list_ascii_of_string base))
                   (n - 1 - Z.of_nat (String.length e) - 1)
                   (mk_scan (n - 1 - Z.of_nat (String.length e)) 0 (n - 1 + 1) false 0)) <> 0).
    { apply D. left. apply rev_nonempty_string. exact Hb. }
    rewrite A, B, C.
    replace (n - 1 - Z.of_nat (String.length e) =? -1) with false
      by (symmetry; apply Z.eqb_neq; lia).
    replace (n - 1 + 1 =? -1) with false by (symmetry; apply Z.eqb_neq; lia).
    replace (preDotState _ =? 0) with false by (symmetry; apply Z.eqb_neq; exact Hd).
    replace (n - 1 - Z.of_nat (String.length e) =? n - 1 + 1 - 1) with false
      by (symmetry; apply Z.eqb_neq; lia).
    rewrite andb_false_r. cbn [orb].
    unfold slice.
    replace (Z.to_nat (n - 1 - Z.of_nat (String.length e))) with (String.length base) by lia.
    replace (Z.to_nat (n - 1 + 1 - (n - 1 - Z.of_nat (String.length e))))
      with (String.length (String "." e)) by (simpl String.length; lia).
    rewrite substring_app_r. reflexivity.
  - unfold fromExt, extname. cbn [list_ascii_of_string rev].
    assert (He1 : (1 <= String.length e)%nat) by (destruct e; [contradiction|simpl; lia]).
    rewrite scan_plain_first by (try assumption; try reflexivity; simpl String.length; lia).
    cbn [startDot startPart end_ preDotState scan_init].
    rewrite scan_dot_first by (simpl String.length; lia).
    cbn [scan startDot end_ preDotState startPart].
    rewrite Z.eqb_refl, orb_true_r. reflexivity.
  - intro Hbd. unfold fromExt, extname.
    rewrite scan_no_dot; [reflexivity| |reflexivity].
    apply Forall_rev. apply includes_false_Forall in Hbd.
    rewrite Forall_forall in *. intros c Hc. auto.
Qed.

End PathProofs.

(** ** Properties of the convert, compress, security and image endpoints *)

Section WebProofs.
Import Web.
Variable pdf_load : string -> res (list pdf_page).
Variable draw_check : string -> res unit.
Variable sharp_toFile : string -> list sharp_op -> res string.
Variable extractRawText : string -> res string.
Variable utf8_decode : string -> string.

Lemma In_existsb (p : string) (l : list string) :
  In p l -> existsb (String.eqb p) l = true.
Proof.
  intro H. apply existsb_exists. exists p. split; [exact H|apply String.eqb_refl].
Qed.

Ltac web_unfold :=
  unfold handle_e, bind, ret, throw, lift, write_out, unlink_upload, settles,
    mkdir_downloads, with_downloads, save_pdf in *.

Ltac web_cases Hex :=
  repeat (cbn -[String.eqb existsb Path.fromExt] in *; rewrite ?Hex;
          match goal with
          | |- context [match ?x with Ok _ => _ | Err _ => _ end] => destruct x
          | |- context [if ?b then _ else _] => destruct b
          end);
  cbn -[String.eqb existsb Path.fromExt] in *; rewrite ?Hex;
  try reflexivity; try (eexists; reflexivity).

(** X13: a convert request leaves the folders as [settles] says: an error
    response (400 or 500) writes nothing and keeps the upload; a success
    deletes the upload and writes exactly the file it names,
    [converted-${now}.${toFormat}]. *)
Theorem convert_settles (toFormat : option string) (f : upload) now s :
  In (upath f) (uploads s) ->
  settles (upath f) s
    (handle_e (convert_request draw_check sharp_toFile extractRawText utf8_decode
                               toFormat (Some f) now) s) /\
  (forall s' n m,
     handle_e (convert_request draw_check sharp_toFile extractRawText utf8_decode
                               toFormat (Some f) now) s = (s', Done n m) ->
     n = OutName "converted" now (js_str toFormat)).
Proof.
  intro Hin. pose proof (In_existsb _ _ Hin) as Hex.
  unfold convert_request. web_unfold. split.
  - web_cases Hex.
  - intros s' n m. web_cases Hex; intro H; inversion H; reflexivity.
Qed.


Lemma is_value_js_in (v : option string) (x : string) : is_value v x = js_in v [x].
Proof. destruct v; simpl; [rewrite orb_false_r|]; reflexivity. Qed.

Lemma js_in_incl (v : option string) (l1 l2 : list string) :
  incl l1 l2 -> js_in v l2 = false -> js_in v l1 = false.
Proof.
  destruct v as [x|]; [|reflexivity]. simpl. unfold mem. intros Hi H.
  destruct (existsb (String.eqb x) l1) eqn:E; [|reflexivity].
  apply existsb_exists in E as [y [Hy Hxy]].
  assert (E2 : existsb (String.eqb x) l2 = true)
    by (apply existsb_exists; exists y; split; [apply Hi; exact Hy|exact Hxy]).
  rewrite E2 in H. discriminate.
Qed.

Lemma length_substring_le (n m : nat) (s : string) : (String.length (substring n m s) <= m)%nat.
Proof.
  revert n m; induction s as [|c s IH]; intros n m.
  - destruct n, m; simpl; lia.
  - destruct n as [|n]; [destruct m as [|m]; simpl; [lia|specialize (IH 0%nat m); lia]|].
    simpl. apply IH.
Qed.

(** X10: [toFormat] is compared as sent: a target other than the nine
    lower-case names ("jpg", "jpeg", "png", "webp", "gif", "bmp", "pdf",
    "txt", "docx"), such as "PDF" or a missing one, is refused with 400
    "Conversion from <ext> to <toFormat> not supported", whatever the file;
    [downloads/] is created, nothing is written in it and the upload
    stays. *)
Theorem convert_unknown_target (toFormat : option string) (f : upload) now s :
  js_in toFormat (image_formats ++ ["pdf"; "txt"; "docx"]%string) = false ->
  handle_e (convert_request draw_check sharp_toFile extractRawText utf8_decode
                            toFormat (Some f) now) s =
    (with_downloads s, Err400 ("Conversion from " ++ Path.fromExt (originalname f) ++ " to " ++
                js_str toFormat ++ " not supported")%string).
Proof using draw_check sharp_toFile extractRawText utf8_decode.
  intro H.
  assert (Hsub : forall l, incl l (image_formats ++ ["pdf"; "txt"; "docx"]%string) ->
                 js_in toFormat l = false)
    by (intros l Hl; exact (js_in_incl toFormat l _ Hl H)).
  assert (H1 : js_in toFormat image_formats = false)
    by (apply Hsub; apply incl_appl, incl_refl).
  assert (H2 : js_in toFormat ["jpg"; "png"]%string = false)
    by (apply Hsub; unfold incl, image_formats; simpl; intros y Hy; repeat destruct Hy as [<-|Hy]; auto 12; contradiction).
  assert (H3 : is_value toFormat "pdf" = false)
    by (rewrite is_value_js_in; apply Hsub; unfold incl, image_formats; simpl; intros y Hy; repeat destruct Hy as [<-|Hy]; auto 12; contradiction).
  assert (H4 : is_value toFormat "txt" = false)
    by (rewrite is_value_js_in; apply Hsub; unfold incl, image_formats; simpl; intros y Hy; repeat destruct Hy as [<-|Hy]; auto 12; contradiction).
  assert (H5 : is_value toFormat "docx" = false)
    by (rewrite is_value_js_in; apply Hsub; unfold incl, image_formats; simpl; intros y Hy; repeat destruct Hy as [<-|Hy]; auto 12; contradiction).
  unfold convert_request, handle_e, bind at 1, mkdir_downloads. cbv beta iota.
  rewrite H1, H2, H3, H4, H5, !andb_false_r. reflexivity.
Qed.

(** X11: converting a PDF to "jpg" or "png" is refused with 400 "PDF to
    image conversion requires additional setup"; [downloads/] is created,
    nothing is written in it and the upload stays. *)
Theorem convert_pdf_to_image_refused (toFormat : option string) (f : upload) now s :
  Path.fromExt (originalname f) = "pdf"%string ->
  js_in toFormat ["jpg"; "png"]%string = true ->
  handle_e (convert_request draw_check sharp_toFile extractRawText utf8_decode
                            toFormat (Some f) now) s = (with_downloads s, Err400 pdf_image_msg).
Proof.
  intros He Ht. unfold convert_request, handle_e, bind at 1, mkdir_downloads. cbv beta iota.
  rewrite He, Ht. reflexivity.
Qed.

(** X12: a text file converted to "pdf" gives a PDF of one 600 x 800
    page carrying one text, the first 500 characters of the file, drawn
    at (50, 750) in size 12; the upload is deleted and the answer is
    "Converted to PDF". When [drawText] throws (text the standard font
    cannot encode) the answer is 500 and nothing changes but the creation
    of [downloads/]. *)
Theorem convert_txt_to_pdf (f : upload) now s :
  Path.fromExt (originalname f) = "txt"%string ->
  In (upath f) (uploads s) ->
  let text := substring 0 500 (utf8_decode (udata f)) in
  (String.length text <= 500)%nat /\
  (draw_check text = Ok tt ->
   handle_e (convert_request draw_check sharp_toFile extractRawText utf8_decode
                             (Some "pdf"%string) (Some f) now) s =
     (mk_fs (without (upath f) (uploads s))
            (downloads s ++ [(OutName "converted" now "pdf",
                              PdfFile [mk_page 600 800 [mk_drawing text 50 750 12 None]])])
            true,
      Done (OutName "converted" now "pdf") "Converted to PDF")) /\
  (forall e, draw_check text = Err e ->
   handle_e (convert_request draw_check sharp_toFile extractRawText utf8_decode
                             (Some "pdf"%string) (Some f) now) s = (with_downloads s, Err500 e)).
Proof.
  intros He Hin text. pose proof (In_existsb _ _ Hin) as Hex.
  split; [apply length_substring_le|split].
  - intro Hd. unfold convert_request, handle_e, bind at 1, mkdir_downloads. cbv beta iota.
    rewrite He. cbn -[substring].
    fold text. rewrite Hd. web_unfold. cbn -[String.eqb existsb]. rewrite Hex. reflexivity.
  - intros e Hd. unfold convert_request, handle_e, bind at 1, mkdir_downloads. cbv beta iota.
    rewrite He. cbn -[substring].
    fold text. rewrite Hd. reflexivity.
Qed.


(** X14: a compress request leaves the folders as [settles] says, a
    success naming [compressed-${now}.${ext}]; a file whose extension is
    none of jpg, jpeg, png, webp, pdf (in any case; a name with no
    extension or a dot file such as ".png" included) is refused with 400
    "Unsupported file format for compression", and its upload stays
    (the handler has created [downloads/] first). *)
Theorem compress_settles (level : option string) (f : upload) now s :
  In (upath f) (uploads s) ->
  settles (upath f) s (handle_e (compress_request pdf_load sharp_toFile level (Some f) now) s) /\
  (forall s' n m,
     handle_e (compress_request pdf_load sharp_toFile level (Some f) now) s = (s', Done n m) ->
     n = OutName "compressed" now (Path.fromExt (originalname f))) /\
  (mem (Path.fromExt (originalname f)) ["jpg"; "jpeg"; "png"; "webp"; "pdf"]%string = false ->
   handle_e (compress_request pdf_load sharp_toFile level (Some f) now) s =
     (with_downloads s, Err400 compress_msg)).
Proof.
  intro Hin. pose proof (In_existsb _ _ Hin) as Hex.
  split; [|split].
  - unfold compress_request. web_unfold. web_cases Hex.
  - intros s' n m. unfold compress_request. web_unfold.
    web_cases Hex; intro H; inversion H; reflexivity.
  - unfold compress_request, mem, handle_e, bind at 1, mkdir_downloads. cbv beta iota.
    intro H. cbn [existsb] in H.
    apply orb_false_iff in H as [H1 H].
    apply orb_false_iff in H as [H2 H].
    apply orb_false_iff in H as [H3 H].
    apply orb_false_iff in H as [H4 H].
    apply orb_false_iff in H as [H5 _].
    cbn [existsb]. rewrite H1, H2, H3, H4, H5. reflexivity.
Qed.

Lemma draw_all_ok (d : drawing) (pages : list pdf_page) (s : fsys) :
  draw_check (dtext d) = Ok tt ->
  draw_all draw_check d pages s = (s, Ok (map (add_drawing d) pages)).
Proof.
  intro Hd. induction pages as [|p ps IH]; [reflexivity|].
  cbn [draw_all]. unfold bind at 1, lift. rewrite Hd. unfold ret at 1.
  unfold bind at 1. rewrite IH. reflexivity.
Qed.

Lemma draw_all_err (d : drawing) (pages : list pdf_page) (s : fsys) (e : string) :
  draw_check (dtext d) = Err e -> pages <> [] ->
  draw_all draw_check d pages s = (s, Err e).
Proof.
  intros Hd Hne. destruct pages as [|p ps]; [contradiction|].
  cbn [draw_all]. unfold bind at 1, lift. rewrite Hd. reflexivity.
Qed.

Lemma bind_assoc_at {A B C : Type} (m : M fsys A) (k1 : A -> M fsys B) (k2 : B -> M fsys C) s :
  bind (bind m k1) k2 s = bind m (fun a => bind (k1 a) k2) s.
Proof. unfold bind. destruct (m s) as [s' [a|e]]; reflexivity. Qed.

Lemma bind_ok_at {A B : Type} (m : M fsys A) (k : A -> M fsys B) s s' a :
  m s = (s', Ok a) -> bind m k s = k a s'.
Proof. unfold bind. intros ->. reflexivity. Qed.

Lemma bind_err_at {A B : Type} (m : M fsys A) (k : A -> M fsys B) s s' e :
  m s = (s', Err e) -> bind m k s = (s', Err e).
Proof. unfold bind. intros ->. reflexivity. Qed.

(** X15: every security request loads the PDF first: a file that does not
    load as a PDF is answered 500, whatever the action; a loadable one
    with the action "encrypt" is refused with 400 "PDF encryption requires
    additional setup with qpdf or similar tools". In both cases nothing is
    written and the upload stays. *)
Theorem security_load_then_encrypt (action pw wt : option string) (f : upload) now s :
  (forall e, pdf_load (udata f) = Err e ->
   handle_e (security_request pdf_load draw_check action pw wt (Some f) now) s = (s, Err500 e)) /\
  (forall doc, pdf_load (udata f) = Ok doc ->
   handle_e (security_request pdf_load draw_check (Some "encrypt"%string) pw wt (Some f) now) s =
     (s, Err400 encrypt_msg)).
Proof.
  split.
  - intros e He. unfold security_request. web_unfold. rewrite He. reflexivity.
  - intros doc Hd. unfold security_request. web_unfold. rewrite Hd. reflexivity.
Qed.

(** X16: a watermark with a non-empty text on a PDF with pages draws the
    same text on every page, at x = width/2 - 100 and y = height/2 of the
    FIRST page, size 48, opacity 0.2; where [downloads/] exists it writes
    the result as [watermark-${now}.pdf] and deletes the upload. The
    security handler never creates [downloads/]: where it does not exist
    the write throws ENOENT, the answer is 500 and the upload stays. *)
Theorem security_watermark (pw : option string) (text : string) (p0 : pdf_page)
        (ps : list pdf_page) (f : upload) now s :
  pdf_load (udata f) = Ok (p0 :: ps) -> text <> ""%string -> draw_check text = Ok tt ->
  In (upath f) (uploads s) ->
  let d := mk_drawing text (pwidth p0 / 2 - 100)%Q (pheight p0 / 2)%Q 48 (Some (1 # 5)%Q) in
  (has_downloads s = true ->
   handle_e (security_request pdf_load draw_check (Some "watermark"%string) pw (Some text)
                              (Some f) now) s =
     (mk_fs (without (upath f) (uploads s))
            (downloads s ++ [(OutName "watermark" now "pdf", PdfFile (map (add_drawing d) (p0 :: ps)))])
            true,
      Done (OutName "watermark" now "pdf") "watermark applied successfully")) /\
  (has_downloads s = false ->
   handle_e (security_request pdf_load draw_check (Some "watermark"%string) pw (Some text)
                              (Some f) now) s =
     (s, Err500 (open_enoent (OutName "watermark" now "pdf")))).
Proof.
  intros Hl Ht Hd Hin d. pose proof (In_existsb _ _ Hin) as Hex.
  assert (Htr : truthy (Some text) = true).
  { simpl. destruct (String.eqb text "") eqn:E; [apply String.eqb_eq in E; contradiction|reflexivity]. }
  unfold security_request, handle_e.
  rewrite (bind_ok_at _ _ s s (p0 :: ps)) by (unfold lift; rewrite Hl; reflexivity).
  cbn [is_value String.eqb Ascii.eqb Bool.eqb]. rewrite Htr. cbn [andb].
  fold d. rewrite bind_assoc_at.
  rewrite (bind_ok_at _ _ s s (map (add_drawing d) (p0 :: ps))) by (apply draw_all_ok; exact Hd).
  destruct s as [u dl h]. cbn [has_downloads uploads downloads] in *.
  split; intros ->; web_unfold; cbn -[String.eqb existsb]; rewrite ?Hex; reflexivity.
Qed.

(** X17: a watermark request on a PDF with no page is answered 500 (the
    read of [pages[0]] throws), and so is one whose text [drawText]
    cannot draw; nothing is written and the upload stays. *)
Theorem security_watermark_failures (pw : option string) (text : string) (pages : list pdf_page)
        (f : upload) now s :
  text <> ""%string -> pdf_load (udata f) = Ok pages ->
  (pages = [] ->
   handle_e (security_request pdf_load draw_check (Some "watermark"%string) pw (Some text)
                              (Some f) now) s = (s, Err500 getSize_msg)) /\
  (forall e, pages <> [] -> draw_check text = Err e ->
   handle_e (security_request pdf_load draw_check (Some "watermark"%string) pw (Some text)
                              (Some f) now) s = (s, Err500 e)).
Proof.
  intros Ht Hl.
  assert (Htr : truthy (Some text) = true).
  { simpl. destruct (String.eqb text "") eqn:E; [apply String.eqb_eq in E; contradiction|reflexivity]. }
  split.
  - intros ->. unfold security_request, handle_e.
    rewrite (bind_ok_at _ _ s s []) by (unfold lift; rewrite Hl; reflexivity).
    cbn [is_value String.eqb Ascii.eqb Bool.eqb]. rewrite Htr. reflexivity.
  - intros e Hne Hd. unfold security_request, handle_e.
    rewrite (bind_ok_at _ _ s s pages) by (unfold lift; rewrite Hl; reflexivity).
    cbn [is_value String.eqb Ascii.eqb Bool.eqb]. rewrite Htr. cbn [andb].
    destruct pages as [|p0 ps]; [contradiction|].
    rewrite bind_assoc_at.
    rewrite (bind_err_at _ _ s s e) by (apply draw_all_err; [exact Hd|discriminate]).
    reflexivity.
Qed.

(** X18: any security action other than "encrypt", and "watermark"
    without a text, is answered success with the file name
    [${securityAction}-${now}.pdf] and the message "<action> applied
    successfully" (for a missing action: "undefined ..."), although no
    file is written: the download link points at nothing; the upload is
    deleted. *)
Theorem security_other_action_writes_nothing (action pw wt : option string) (doc : list pdf_page)
        (f : upload) now s :
  is_value action "encrypt" = false ->
  is_value action "watermark" && truthy wt = false ->
  pdf_load (udata f) = Ok doc -> In (upath f) (uploads s) ->
  handle_e (security_request pdf_load draw_check action pw wt (Some f) now) s =
    (mk_fs (without (upath f) (uploads s)) (downloads s) (has_downloads s),
     Done (OutName (js_str action) now "pdf") (js_str action ++ " applied successfully")%string).
Proof.
  intros He Hw Hl Hin. pose proof (In_existsb _ _ Hin) as Hex.
  unfold security_request, handle_e.
  rewrite (bind_ok_at _ _ s s doc) by (unfold lift; rewrite Hl; reflexivity).
  rewrite He, Hw. web_unfold. cbn -[String.eqb existsb]. rewrite Hex. reflexivity.
Qed.

(** X19: an image request leaves the folders as [settles] says, a success
    naming [edited-${now}.${ext}]. *)
Theorem image_settles (op ra rw rh : option string) (f : upload) now s :
  In (upath f) (uploads s) ->
  settles (upath f) s (handle_e (image_request sharp_toFile op ra rw rh (Some f) now) s) /\
  (forall s' n m,
     handle_e (image_request sharp_toFile op ra rw rh (Some f) now) s = (s', Done n m) ->
     n = OutName "edited" now (Path.fromExt (originalname f))).
Proof.
  intro Hin. pose proof (In_existsb _ _ Hin) as Hex.
  unfold image_request. web_unfold.
  destruct (sharp_toFile (udata f) (image_ops op ra rw rh)) as [b|e];
    cbn -[String.eqb existsb]; rewrite ?Hex; cbn -[String.eqb existsb].
  - split; [eexists; reflexivity|intros s' n m H; inversion H; reflexivity].
  - split; [reflexivity|intros s' n m H; discriminate H].
Qed.


End WebProofs.

Section ParseIntExtras.


Lemma dec_digit_not_special (c : ascii) :
  Js.dec_digit c ->
  Js.is_space c = false /\ Ascii.eqb c "-" = false /\ Ascii.eqb c "+" = false /\
  Ascii.eqb c "x" = false /\ Ascii.eqb c "X" = false.
Proof.
  unfold Js.dec_digit. destruct c as [[] [] [] [] [] [] [] []]; vm_compute; intro H;
    first [discriminate H | repeat split].
Qed.

Lemma digits_from_prefix (acc : Z) (ds rest : string) :
  Forall Js.dec_digit (list_ascii_of_string ds) ->
  match rest with EmptyString => True | String c _ => 10 <= Js.digit_value c end ->
  Js.digits_from 10 acc (ds ++ rest) = Js.digits_from 10 acc ds.
Proof.
  revert acc. induction ds as [|c ds IH]; intros acc Hd Hr.
  - destruct rest as [|c r]; [reflexivity|]. cbn [append Js.digits_from].
    destruct (Js.digit_value c <? 10) eqn:E; [apply Z.ltb_lt in E; lia|reflexivity].
  - inversion Hd as [|? ? Hc Hds]; subst. unfold Js.dec_digit in Hc.
    cbn [append Js.digits_from]. rewrite Hc. apply IH; assumption.
Qed.

Lemma parseInt_decimal (c0 : ascii) (ds rest : string) :
  Forall Js.dec_digit (list_ascii_of_string (String c0 ds)) ->
  match rest with EmptyString => True | String c _ => 10 <= Js.digit_value c end ->
  (ds = ""%string -> c0 = "0"%char ->
   match rest with String c _ => c <> "x"%char /\ c <> "X"%char | EmptyString => True end) ->
  Js.parseInt (String c0 ds ++ rest) = Some (Js.digits_from 10 (Js.digit_value c0) ds).
Proof.
  intros Hd Hr Hx. inversion Hd as [|? ? Hc Hds]; subst.
  destruct (dec_digit_not_special c0 Hc) as (Hs & Hm & Hp & _).
  unfold Js.parseInt, Js.trimStart. cbn [append list_ascii_of_string Js.drop_spaces].
  rewrite Hs. cbn [string_of_list_ascii]. rewrite string_of_list_ascii_of_string, Hm, Hp.
  assert (Hrad : match (ds ++ rest)%string with
                 | String c2 _ => Ascii.eqb c0 "0" && (Ascii.eqb c2 "x" || Ascii.eqb c2 "X")
                 | EmptyString => false end = false).
  { destruct ds as [|c1 ds'].
    - destruct rest as [|c r]; [reflexivity|]. cbn [append].
      destruct (Ascii.eqb c0 "0") eqn:E0; [|reflexivity].
      apply Ascii.eqb_eq in E0. destruct (Hx eq_refl E0) as [H1 H2].
      apply Ascii.eqb_neq in H1, H2. rewrite H1, H2. reflexivity.
    - inversion Hds as [|? ? Hc1 _]; subst.
      destruct (dec_digit_not_special c1 Hc1) as (_ & _ & _ & H1 & H2).
      cbn [append]. rewrite H1, H2, andb_false_r. reflexivity. }
  destruct (ds ++ rest)%string as [|c2 r] eqn:Hdr.
  - cbn. unfold Js.dec_digit in Hc. rewrite Hc. cbn [option_map].
    rewrite Z.mul_1_l. destruct ds; [reflexivity|discriminate Hdr].
  - cbn beta iota in Hrad |- *. rewrite Hrad. rewrite <- Hdr.
    cbn [Js.parse_digits]. unfold Js.dec_digit in Hc. rewrite Hc. cbn [option_map].
    rewrite Z.mul_1_l. f_equal.
    apply digits_from_prefix; assumption.
Qed.

Lemma str_app_empty_r (s : string) : (s ++ "")%string = s.
Proof. induction s as [|c s IH]; [reflexivity|cbn; rewrite IH; reflexivity]. Qed.

Context {Page : Type}.
Variable blank : Page.

(** X21: [parseInt] reads the leading run of decimal digits and ignores
    what follows it ("2.5" and "2abc" read as 2, "1e3" as 1); the one
    exception is a lone "0" followed by "x" or "X", which switches to
    hexadecimal.  A split by size with such a part count therefore
    behaves exactly as with the digits alone. *)
Theorem size_split_reads_leading_digits (file : option (res (list Page))) (c0 : ascii)
        (ds rest : string) now st :
  Forall Js.dec_digit (list_ascii_of_string (String c0 ds)) ->
  match rest with EmptyString => True | String c _ => 10 <= Js.digit_value c end ->
  (ds = ""%string -> c0 = "0"%char ->
   match rest with String c _ => c <> "x"%char /\ c <> "X"%char | EmptyString => True end) ->
  Js.parseInt (String c0 ds ++ rest) = Js.parseInt (String c0 ds) /\
  split_handler blank (size_body (String c0 ds ++ rest)) file now st =
    split_handler blank (size_body (String c0 ds)) file now st.
Proof.
  intros Hd Hr Hx.
  assert (Hp : Js.parseInt (String c0 ds ++ rest) = Js.parseInt (String c0 ds)).
  { rewrite (parseInt_decimal c0 ds rest Hd Hr Hx).
    rewrite <- (str_app_empty_r (String c0 ds)).
    rewrite (parseInt_decimal c0 ds "" Hd I); [reflexivity|].
    intros _ _. exact I. }
  split; [exact Hp|].
  unfold split_handler, handle, split_request, size_body.
  cbn [splitOption pageRanges numParts field append truthy String.eqb negb].
  cbn [append] in Hp. rewrite Hp. reflexivity.
Qed.

End ParseIntExtras.

(** ** Instances of the properties above *)

Section ExtraInstances.
Import Cleanup Web Demo.

Lemma single_token_indices_witness :
  Js.includes "-"%char "0" = false /\ In (-1) (resolve (Z.of_nat 3) (parse_token "0")).
Proof.
  assert (H : Js.includes "-"%char "0" = false) by reflexivity.
  split; [exact H|].
  apply (proj2 (proj2 (single_token_indices 3 "0" H))). reflexivity.
Defined.

Lemma open_interval_tokens_empty_witness :
  Js.includes "-"%char "5" = false /\
  resolve 10 (parse_token (String "-" "5")) = [] /\ resolve 10 (parse_token ("5" ++ "-")) = [].
Proof.
  assert (H : Js.includes "-"%char "5" = false) by reflexivity.
  split; [exact H|]. exact (open_interval_tokens_empty 10 "5" "5" H).
Defined.

Lemma interval_token_fields_witness :
  Js.includes "-"%char "1" = false /\ Js.includes "-"%char " 3" = false /\
  parse_token ("1" ++ String "-" (" 3" ++ String "-" "5")) =
    Interval (Js.parseInt (Js.trim "1")) (Js.parseInt (Js.trim " 3")).
Proof.
  assert (Ha : Js.includes "-"%char "1" = false) by reflexivity.
  assert (Hb : Js.includes "-"%char " 3" = false) by reflexivity.
  split; [exact Ha|split; [exact Hb|]].
  exact (proj1 (interval_token_fields "1" " 3" "5" Ha Hb)).
Defined.


Lemma size_split_nan_or_nonpositive_witness :
  Js.parseInt "-3" = Some (-3) /\
  split_handler blank_n (size_body "-3") (Some (Ok (sample 4))) 7 fresh_downloads =
    (mk_store true [(SplitZip 7, Zip [])], Success (SplitZip 7) (SplitInto 0)) /\
  split_handler blank_n (size_body "-3") (Some (Ok (sample 4))) 7 no_downloads =
    (no_downloads, ArchiveLost (SplitZip 7)).
Proof.
  assert (H : Js.parseInt "-3" = None \/ exists P, Js.parseInt "-3" = Some P /\ P <= 0)
    by (right; exists (-3); split; [reflexivity|lia]).
  split; [reflexivity|split].
  - exact (proj1 (size_split_nan_or_nonpositive blank_n (sample 4) "-3" 7 fresh_downloads H) eq_refl).
  - exact (proj2 (size_split_nan_or_nonpositive blank_n (sample 4) "-3" 7 no_downloads H) eq_refl).
Defined.

Lemma cleanup_removes_expired_witness :
  Forall sound [mk_entry "a" (Some 0) true; mk_entry "b" (Some 3999000) true] /\
  Forall sound [mk_entry "c" (Some 100) true] /\
  unlinked (fst (cleanupOldFiles (fun _ => 4000000)
                   (Some [mk_entry "a" (Some 0) true; mk_entry "b" (Some 3999000) true])
                   (Some [mk_entry "c" (Some 100) true]) (mk_sweep 0 []))) =
    [("uploads"%string, "a"%string); ("downloads"%string, "c"%string)].
Proof.
  assert (H1 : Forall sound [mk_entry "a" (Some 0) true; mk_entry "b" (Some 3999000) true])
    by (unfold sound; repeat constructor; discriminate).
  assert (H2 : Forall sound [mk_entry "c" (Some 100) true])
    by (unfold sound; repeat constructor; discriminate).
  split; [exact H1|split; [exact H2|]].
  rewrite (proj1 (cleanup_removes_expired 4000000 _ _ (mk_sweep 0 []) H1 H2)).
  vm_compute. reflexivity.
Defined.


Lemma fromExt_shapes_witness :
  Js.includes "/"%char "photo" = false /\
  Path.fromExt ("photo" ++ String "." "PNG") = Path.toLowerCase "PNG" /\
  Path.fromExt (String "." "PNG") = ""%string.
Proof.
  assert (H1 : "photo"%string <> ""%string) by discriminate.
  assert (H2 : Js.includes "/"%char "photo" = false) by reflexivity.
  assert (H3 : "PNG"%string <> ""%string) by discriminate.
  assert (H4 : Js.includes "."%char "PNG" = false) by reflexivity.
  assert (H5 : Js.includes "/"%char "PNG" = false) by reflexivity.
  destruct (fromExt_shapes "photo" "PNG" H1 H2 H3 H4 H5) as [E1 [E2 _]].
  split; [exact H2|split; [exact E1|exact E2]].
Defined.

Lemma convert_settles_witness :
  In (upath (demo_upload "a.txt")) (uploads demo_fs) /\
  settles (upath (demo_upload "a.txt")) demo_fs
    (handle_e (convert_request demo_draw demo_sharp demo_docx demo_utf8
                               (Some "pdf"%string) (Some (demo_upload "a.txt")) 5) demo_fs).
Proof.
  assert (H : In (upath (demo_upload "a.txt")) (uploads demo_fs)) by (simpl; left; reflexivity).
  split; [exact H|]. exact (proj1 (convert_settles demo_draw demo_sharp demo_docx demo_utf8
                                     (Some "pdf"%string) (demo_upload "a.txt") 5 demo_fs H)).
Defined.

Lemma convert_unknown_target_witness :
  handle_e (convert_request demo_draw demo_sharp demo_docx demo_utf8
                            (Some "PDF"%string) (Some (demo_upload "a.txt")) 5) demo_fs =
    (demo_fs, Err400 "Conversion from txt to PDF not supported").
Proof.
  assert (H : js_in (Some "PDF"%string) (image_formats ++ ["pdf"; "txt"; "docx"]%string) = false)
    by reflexivity.
  rewrite (convert_unknown_target demo_draw demo_sharp demo_docx demo_utf8
             (Some "PDF"%string) (demo_upload "a.txt") 5 demo_fs H).
  reflexivity.
Defined.

Lemma convert_pdf_to_image_refused_witness :
  handle_e (convert_request demo_draw demo_sharp demo_docx demo_utf8
                            (Some "png"%string) (Some (demo_upload "scan.PDF")) 5) demo_fresh_fs =
    (demo_fs, Err400 pdf_image_msg).
Proof.
  assert (H1 : Path.fromExt (originalname (demo_upload "scan.PDF")) = "pdf"%string) by reflexivity.
  assert (H2 : js_in (Some "png"%string) ["jpg"; "png"]%string = true) by reflexivity.
  exact (convert_pdf_to_image_refused demo_draw demo_sharp demo_docx demo_utf8
           (Some "png"%string) (demo_upload "scan.PDF") 5 demo_fresh_fs H1 H2).
Defined.

Lemma convert_txt_to_pdf_witness :
  handle_e (convert_request demo_draw demo_sharp demo_docx demo_utf8
                            (Some "pdf"%string) (Some (demo_upload "a.txt")) 5) demo_fs =
    (mk_fs [] [(OutName "converted" 5 "pdf",
                PdfFile [mk_page 600 800 [mk_drawing "hello" 50 750 12 None]])] true,
     Done (OutName "converted" 5 "pdf") "Converted to PDF").
Proof.
  assert (H1 : Path.fromExt (originalname (demo_upload "a.txt")) = "txt"%string) by reflexivity.
  assert (H2 : In (upath (demo_upload "a.txt")) (uploads demo_fs)) by (simpl; left; reflexivity).
  destruct (convert_txt_to_pdf demo_draw demo_sharp demo_docx demo_utf8
              (demo_upload "a.txt") 5 demo_fs H1 H2) as [_ [E _]].
  rewrite (E eq_refl). reflexivity.
Defined.

Lemma compress_settles_witness :
  handle_e (compress_request demo_pdf demo_sharp (Some "high"%string)
                             (Some (demo_upload "notes.txt")) 5) demo_fs =
    (demo_fs, Err400 compress_msg).
Proof.
  assert (H1 : In (upath (demo_upload "notes.txt")) (uploads demo_fs)) by (simpl; left; reflexivity).
  assert (H2 : mem (Path.fromExt (originalname (demo_upload "notes.txt")))
                   ["jpg"; "jpeg"; "png"; "webp"; "pdf"]%string = false) by reflexivity.
  exact (proj2 (proj2 (compress_settles demo_pdf demo_sharp (Some "high"%string)
                         (demo_upload "notes.txt") 5 demo_fs H1)) H2).
Defined.

Lemma security_load_then_encrypt_witness :
  handle_e (security_request demo_pdf demo_draw (Some "encrypt"%string) (Some "pw"%string) None
                             (Some (demo_upload "a.pdf")) 5) demo_fs =
    (demo_fs, Err400 encrypt_msg).
Proof.
  exact (proj2 (security_load_then_encrypt demo_pdf demo_draw (Some "encrypt"%string)
                  (Some "pw"%string) None (demo_upload "a.pdf") 5 demo_fs) _ eq_refl).
Defined.

Lemma security_watermark_witness :
  handle_e (security_request demo_pdf demo_draw (Some "watermark"%string) None
                             (Some "DRAFT"%string) (Some (demo_upload "a.pdf")) 5) demo_fs =
    (mk_fs [] [(OutName "watermark" 5 "pdf",
                PdfFile [mk_page 600 800 [mk_drawing "DRAFT" (600 / 2 - 100) (800 / 2) 48 (Some (1 # 5))];
                         mk_page 300 400 [mk_drawing "DRAFT" (600 / 2 - 100) (800 / 2) 48 (Some (1 # 5))]])]
           true,
     Done (OutName "watermark" 5 "pdf") "watermark applied successfully") /\
  handle_e (security_request demo_pdf demo_draw (Some "watermark"%string) None
                             (Some "DRAFT"%string) (Some (demo_upload "a.pdf")) 5) demo_fresh_fs =
    (demo_fresh_fs, Err500 "ENOENT: no such file or directory, open 'downloads/watermark-5.pdf'").
Proof.
  assert (H1 : demo_pdf (udata (demo_upload "a.pdf")) = Ok [mk_page 600 800 []; mk_page 300 400 []])
    by reflexivity.
  assert (H2 : "DRAFT"%string <> ""%string) by discriminate.
  assert (H3 : demo_draw "DRAFT" = Ok tt) by reflexivity.
  assert (H4 : In (upath (demo_upload "a.pdf")) (uploads demo_fs)) by (simpl; left; reflexivity).
  assert (H5 : In (upath (demo_upload "a.pdf")) (uploads demo_fresh_fs)) by (simpl; left; reflexivity).
  split.
  - rewrite (proj1 (security_watermark demo_pdf demo_draw None "DRAFT" _ _ (demo_upload "a.pdf") 5
                      demo_fs H1 H2 H3 H4) eq_refl).
    reflexivity.
  - rewrite (proj2 (security_watermark demo_pdf demo_draw None "DRAFT" _ _ (demo_upload "a.pdf") 5
                      demo_fresh_fs H1 H2 H3 H5) eq_refl).
    vm_compute. reflexivity.
Defined.

Lemma security_watermark_failures_witness :
  handle_e (security_request (fun _ => Ok []) demo_draw (Some "watermark"%string) None
                             (Some "DRAFT"%string) (Some (demo_upload "a.pdf")) 5) demo_fs =
    (demo_fs, Err500 getSize_msg).
Proof.
  assert (H1 : "DRAFT"%string <> ""%string) by discriminate.
  assert (H2 : (fun _ : string => Ok (@nil pdf_page)) (udata (demo_upload "a.pdf")) = Ok [])
    by reflexivity.
  exact (proj1 (security_watermark_failures (fun _ => Ok []) demo_draw None "DRAFT" []
                  (demo_upload "a.pdf") 5 demo_fs H1 H2) eq_refl).
Defined.

Lemma security_other_action_writes_nothing_witness :
  handle_e (security_request demo_pdf demo_draw None None None
                             (Some (demo_upload "a.pdf")) 5) demo_fs =
    (mk_fs [] [] true, Done (OutName "undefined" 5 "pdf") "undefined applied successfully").
Proof.
  assert (H1 : is_value None "encrypt" = false) by reflexivity.
  assert (H2 : is_value None "watermark" && truthy None = false) by reflexivity.
  assert (H3 : demo_pdf (udata (demo_upload "a.pdf")) = Ok [mk_page 600 800 []; mk_page 300 400 []])
    by reflexivity.
  assert (H4 : In (upath (demo_upload "a.pdf")) (uploads demo_fs)) by (simpl; left; reflexivity).
  rewrite (security_other_action_writes_nothing demo_pdf demo_draw None None None _
             (demo_upload "a.pdf") 5 demo_fs H1 H2 H3 H4).
  reflexivity.
Defined.

Lemma image_settles_witness :
  settles (upath (demo_upload "p.png")) demo_fs
    (handle_e (image_request demo_sharp (Some "filter"%string) None None None
                             (Some (demo_upload "p.png")) 5) demo_fs).
Proof.
  assert (H : In (upath (demo_upload "p.png")) (uploads demo_fs)) by (simpl; left; reflexivity).
  exact (proj1 (image_settles demo_sharp (Some "filter"%string) None None None
                  (demo_upload "p.png") 5 demo_fs H)).
Defined.


Lemma size_split_reads_leading_digits_witness :
  Js.parseInt "2.5" = Js.parseInt "2" /\
  split_handler blank_n (size_body "2.5") (Some (Ok (sample 4))) 7 fresh_downloads =
    split_handler blank_n (size_body "2") (Some (Ok (sample 4))) 7 fresh_downloads.
Proof.
  assert (H1 : Forall Js.dec_digit (list_ascii_of_string "2"))
    by (unfold Js.dec_digit; repeat constructor).
  assert (H2 : 10 <= Js.digit_value "."%char) by (vm_compute; discriminate).
  assert (H3 : ""%string = ""%string -> "2"%char = "0"%char ->
               ("."%char <> "x"%char /\ "."%char <> "X"%char))
    by (intros _ H; discriminate H).
  exact (size_split_reads_leading_digits blank_n (Some (Ok (sample 4))) "2" "" ".5" 7 fresh_downloads
           H1 H2 H3).
Defined.

End ExtraInstances.
